(** * A Restricted Boltzmann Machine: CH14/RBM_01.py

    A shallow embedding of the class [RBM] of [CH14/RBM_01.py] and the
    properties its specification states about it.

    Modelling choices.
    - numpy's float64 entries are real numbers ([R]); [np.exp] is [exp] and
      [np.sqrt] is [sqrt].  Rounding, overflow, nan and inf are not modelled.
      In particular [train] on data without rows divides by zero rows: numpy
      then stores nan in every weight, which the model cannot say, so the
      statements on the values of the weights are for data of at least one
      row.
    - A 2-D [ndarray] is its column count and its list of rows (so that an
      array without rows still has a column count, as [shape] has in numpy);
      a 1-D array is a [list R].  A boolean array is the 0/1 array numpy
      converts it to as soon as it is used in [np.dot] or stored in a float
      array.
    - numpy raises [ValueError] when the operands of an elementwise
      operation have different shapes that do not broadcast.  Broadcasting is
      not modelled: elementwise operations on different shapes raise
      [ValueError].  In every call made on an engine built by [__init__] the
      shapes coincide.
    - The process-wide generator behind [np.random.rand] is a stream of reals
      and a cursor; the private generator [np.random.RandomState(1234)] of
      [__init__] is the stream [mt19937 1234], a parameter of the
      development.
    - Methods run in a state-and-exception monad over the object [self], the
      global generator and the lines printed so far. *)

From Stdlib Require Import Reals Lra Lia List ZArith Bool.
From Stdlib Require String.
Import String.StringSyntax.
Import ListNotations.
Local Open Scope R_scope.
Delimit Scope string_scope with string.

(** ** Exceptions and results *)

Inductive exn : Set :=
| ZeroDivisionError
| ValueError
| IndexError.

Inductive result (A : Type) : Type :=
| Ok (a : A)
| Raise (e : exn).
Arguments Ok {A} a.
Arguments Raise {A} e.

(** ** Arrays *)

Record ndarray : Type := NdArray { ncols : nat; rows : list (list R) }.

(** [m.shape[0]] *)
Definition shape0 (m : ndarray) : nat := length (rows m).

(** every row has [ncols] entries *)
Definition wf (m : ndarray) : Prop :=
  Forall (fun r => length r = ncols m) (rows m).

(** [m[i, j]] for indices in range *)
Definition entry (m : ndarray) (i j : nat) : R := nth j (nth i (rows m) []) 0.

(** the sum of [f 0 .. f (n-1)] *)
Definition Rsum (n : nat) (f : nat -> R) : R :=
  fold_right Rplus 0 (map f (seq 0 n)).

(** [np.ones((d0, d1))] *)
Definition np_ones (d0 d1 : Z) : result ndarray :=
  if ((d0 <? 0) || (d1 <? 0))%Z then Raise ValueError
  else Ok (NdArray (Z.to_nat d1) (repeat (repeat 1 (Z.to_nat d1)) (Z.to_nat d0))).

(** [np.insert(m, 0, v, axis = 0)]: a new first row of [v]s *)
Definition np_insert_row (v : R) (m : ndarray) : ndarray :=
  NdArray (ncols m) (repeat v (ncols m) :: rows m).

(** [np.insert(m, 0, v, axis = 1)]: a new first column of [v]s *)
Definition np_insert_col (v : R) (m : ndarray) : ndarray :=
  NdArray (S (ncols m)) (map (cons v) (rows m)).

(** the columns of [m], first to last *)
Definition cols (m : ndarray) : list (list R) :=
  map (fun j => map (fun r => nth j r 0) (rows m)) (seq 0 (ncols m)).

(** [m.T] *)
Definition T (m : ndarray) : ndarray := NdArray (shape0 m) (cols m).

Fixpoint inner (u v : list R) : R :=
  match u, v with
  | x :: u', y :: v' => x * y + inner u' v'
  | _, _ => 0
  end.

Definition dot_row (b : ndarray) (r : list R) : list R :=
  map (inner r) (cols b).

(** the matrix product of [a] and [b], row by row *)
Definition dot (a b : ndarray) : ndarray :=
  NdArray (ncols b) (map (dot_row b) (rows a)).

(** [np.dot(a, b)] on two 2-D arrays *)
Definition np_dot (a b : ndarray) : result ndarray :=
  if Nat.eqb (ncols a) (shape0 b) then Ok (dot a b) else Raise ValueError.

(** [np.dot(v, b)] on a 1-D and a 2-D array *)
Definition np_dot1 (v : list R) (b : ndarray) : result (list R) :=
  if Nat.eqb (length v) (shape0 b) then Ok (dot_row b v) else Raise ValueError.

Definition nd_map (f : R -> R) (m : ndarray) : ndarray :=
  NdArray (ncols m) (map (map f) (rows m)).

Fixpoint zip_with (f : R -> R -> R) (u v : list R) : list R :=
  match u, v with
  | x :: u', y :: v' => f x y :: zip_with f u' v'
  | _, _ => []
  end.

Fixpoint zip_rows (f : R -> R -> R) (a b : list (list R)) : list (list R) :=
  match a, b with
  | r :: a', s :: b' => zip_with f r s :: zip_rows f a' b'
  | _, _ => []
  end.

Definition same_shape (a b : ndarray) : bool :=
  Nat.eqb (shape0 a) (shape0 b) && Nat.eqb (ncols a) (ncols b).

Definition zip_nd (f : R -> R -> R) (a b : ndarray) : ndarray :=
  NdArray (ncols a) (zip_rows f (rows a) (rows b)).

(** an elementwise binary operation on two 2-D arrays of one shape *)
Definition nd_zip (f : R -> R -> R) (a b : ndarray) : result ndarray :=
  if same_shape a b then Ok (zip_nd f a b) else Raise ValueError.

(** an elementwise binary operation on two 1-D arrays of one length *)
Definition vec_zip (f : R -> R -> R) (u v : list R) : result (list R) :=
  if Nat.eqb (length u) (length v) then Ok (zip_with f u v) else Raise ValueError.

(** [x > y] as the 0/1 value numpy converts the boolean to *)
Definition greater (x y : R) : R := if Rgt_dec x y then 1 else 0.

Definition pin0 (v : R) (r : list R) : list R :=
  match r with
  | [] => []
  | _ :: t => v :: t
  end.

Definition pin_col0 (v : R) (m : ndarray) : ndarray :=
  NdArray (ncols m) (map (pin0 v) (rows m)).

(** [m[:, 0] = v] *)
Definition set_col0 (v : R) (m : ndarray) : result ndarray :=
  match ncols m with
  | O => Raise IndexError
  | S _ => Ok (pin_col0 v m)
  end.

(** [v[0] = x] on a 1-D array *)
Definition vec_set0 (x : R) (v : list R) : result (list R) :=
  match v with
  | [] => Raise IndexError
  | _ :: t => Ok (x :: t)
  end.

(** [m[:, 1:]] *)
Definition drop_col0 (m : ndarray) : ndarray :=
  NdArray (pred (ncols m)) (map (@tl R) (rows m)).

(** [target[:, :] = src] *)
Definition assign_all (target src : ndarray) : result ndarray :=
  if same_shape target src then Ok src else Raise ValueError.

(** the position a Python index denotes in a sequence of [n] items *)
Definition index (n : nat) (i : Z) : option nat :=
  if (0 <=? i)%Z then (if (i <? Z.of_nat n)%Z then Some (Z.to_nat i) else None)
  else if (- Z.of_nat n <=? i)%Z then Some (Z.to_nat (i + Z.of_nat n)) else None.

(** [m[i, :]] *)
Definition get_row (m : ndarray) (i : Z) : result (list R) :=
  match index (shape0 m) i with
  | Some k => Ok (nth k (rows m) [])
  | None => Raise IndexError
  end.

Fixpoint replace_nth {A : Type} (k : nat) (x : A) (l : list A) : list A :=
  match l, k with
  | [], _ => []
  | _ :: t, O => x :: t
  | y :: t, S k' => y :: replace_nth k' x t
  end.

(** [m[i, :] = v] *)
Definition set_row (m : ndarray) (i : Z) (v : list R) : result ndarray :=
  match index (shape0 m) i with
  | Some k =>
      if Nat.eqb (length v) (ncols m)
      then Ok (NdArray (ncols m) (replace_nth k v (rows m)))
      else Raise ValueError
  | None => Raise IndexError
  end.

(** [m[0, 1:] = v] *)
Definition set_row0_from1 (m : ndarray) (v : list R) : result ndarray :=
  match rows m with
  | [] => Raise IndexError
  | r :: rest =>
      if Nat.eqb (length v) (pred (ncols m))
      then Ok (NdArray (ncols m) ((firstn 1 r ++ v)%list :: rest))
      else Raise ValueError
  end.

(** [np.sum(m)] *)
Definition np_sum (m : ndarray) : R :=
  fold_right Rplus 0 (map (fold_right Rplus 0) (rows m)).

(** ** Random generators *)

Record RandomState : Type := { stream : nat -> R; cursor : nat }.

(** the next [n] doubles of a generator *)
Definition draws (g : RandomState) (n : nat) : list R :=
  map (stream g) (seq (cursor g) n).

Definition advance (g : RandomState) (n : nat) : RandomState :=
  {| stream := stream g; cursor := cursor g + n |}.

(** [n] rows of [m] doubles each, drawn in row-major order *)
Fixpoint draw_rows (s : nat -> R) (pos n m : nat) : list (list R) :=
  match n with
  | O => []
  | S n' => map s (seq pos m) :: draw_rows s (pos + m) n' m
  end.

(** what numpy documents of every generator: doubles of [[0, 1)] *)
Definition unit_interval (s : nat -> R) : Prop := forall i, 0 <= s i < 1.

(** ** The object and the state of the process *)

Record RBM : Type := {
  num_hidden : Z;
  num_visible : Z;
  debug_print : bool;
  weights : ndarray
}.

Record state : Type := {
  self : RBM;
  np_random : RandomState;
  stdout : list (Z * R)
}.

Definition M (A : Type) : Type := state -> result A * state.

Definition ret {A : Type} (a : A) : M A := fun s => (Ok a, s).

Definition bind {A B : Type} (m : M A) (k : A -> M B) : M B :=
  fun s =>
    match m s with
    | (Ok a, s') => k a s'
    | (Raise e, s') => (Raise e, s')
    end.

Notation "x <- m ;; k" := (bind m (fun x => k))
  (at level 61, m at next level, right associativity).
Notation "m ;; k" := (bind m (fun _ => k))
  (at level 61, right associativity).

(** an operation that may raise and touches no state *)
Definition lift {A : Type} (r : result A) : M A := fun s => (r, s).

Definition get_weights : M ndarray := fun s => (Ok (weights (self s)), s).
Definition get_num_hidden : M Z := fun s => (Ok (num_hidden (self s)), s).
Definition get_num_visible : M Z := fun s => (Ok (num_visible (self s)), s).
Definition get_debug_print : M bool := fun s => (Ok (debug_print (self s)), s).

Definition set_self (o : RBM) : M unit :=
  fun s => (Ok tt, {| self := o; np_random := np_random s; stdout := stdout s |}).

Definition set_weights (w : ndarray) : M unit :=
  fun s => set_self {| num_hidden := num_hidden (self s);
                       num_visible := num_visible (self s);
                       debug_print := debug_print (self s);
                       weights := w |} s.

(** [print("Epoch %s: error is %s" % (epoch, error))] *)
Definition print (epoch : Z) (error : R) : M unit :=
  fun s => (Ok tt, {| self := self s; np_random := np_random s;
                      stdout := (stdout s ++ [(epoch, error)])%list |}).

(** [np.random.rand(d0, d1)] *)
Definition np_random_rand (d0 d1 : Z) : M ndarray :=
  fun s =>
    if ((d0 <? 0) || (d1 <? 0))%Z then (Raise ValueError, s)
    else
      let g := np_random s in
      let n := Z.to_nat d0 in
      let m := Z.to_nat d1 in
      (Ok (NdArray m (draw_rows (stream g) (cursor g) n m)),
       {| self := self s; np_random := advance g (n * m); stdout := stdout s |}).

(** [np.random.rand(d)] *)
Definition np_random_rand1 (d : Z) : M (list R) :=
  fun s =>
    if (d <? 0)%Z then (Raise ValueError, s)
    else
      let g := np_random s in
      (Ok (draws g (Z.to_nat d)),
       {| self := self s; np_random := advance g (Z.to_nat d); stdout := stdout s |}).

(** [range(start, stop)] *)
Definition range (start stop : Z) : list Z :=
  map (fun k => (start + Z.of_nat k)%Z) (seq 0 (Z.to_nat (stop - start))).

(** [for x in xs: a = body(x, a)] *)
Fixpoint for_each {A : Type} (xs : list Z) (body : Z -> A -> M A) (a : A) : M A :=
  match xs with
  | [] => ret a
  | x :: xs' => a' <- body x a ;; for_each xs' body a'
  end.

(** ** The class [RBM] *)

Definition set_num_hidden (h : Z) : M unit :=
  fun s => set_self {| num_hidden := h;
                       num_visible := num_visible (self s);
                       debug_print := debug_print (self s);
                       weights := weights (self s) |} s.

Definition set_num_visible (v : Z) : M unit :=
  fun s => set_self {| num_hidden := num_hidden (self s);
                       num_visible := v;
                       debug_print := debug_print (self s);
                       weights := weights (self s) |} s.

Definition set_debug_print (b : bool) : M unit :=
  fun s => set_self {| num_hidden := num_hidden (self s);
                       num_visible := num_visible (self s);
                       debug_print := b;
                       weights := weights (self s) |} s.

(** Python's [x / n] on a float and an int *)
Definition float_div (x : R) (n : Z) : result R :=
  if (n =? 0)%Z then Raise ZeroDivisionError else Ok (x / IZR n).

(** [g.uniform(low = low, high = high, size = (d0, d1))] on a generator of
    its own: every entry is [low + (high - low) * u] for the next double [u].
    A negative dimension raises; which exception numpy raises when the
    bounds are nan as well (the square root of a negative number) depends on
    its version, and the model says [ValueError]. *)
Definition uniform (g : RandomState) (low high : R) (d0 d1 : Z) : result ndarray :=
  if ((d0 <? 0) || (d1 <? 0))%Z then Raise ValueError
  else Ok (nd_map (fun u => low + (high - low) * u)
             (NdArray (Z.to_nat d1)
                (draw_rows (stream g) (cursor g) (Z.to_nat d0) (Z.to_nat d1)))).

(** [1.0 / (1 + np.exp(-x))], applied to every entry of an array *)
Definition _logistic (x : R) : R := 1.0 / (1 + exp (- x)).

Section Init.

(** the doubles that [np.random.RandomState(seed)] yields, in order *)
Variable mt19937 : Z -> nat -> R.

(** [np.random.RandomState(seed)] *)
Definition RandomState_new (seed : Z) : RandomState :=
  {| stream := mt19937 seed; cursor := 0 |}.

Definition __init__ (num_visible num_hidden : Z) : M unit :=
  set_num_hidden num_hidden ;;
  set_num_visible num_visible ;;
  set_debug_print true ;;
  let np_rng := RandomState_new 1234 in
  q <- lift (float_div 6 (num_hidden + num_visible)) ;;
  let low := -0.1 * sqrt q in
  q <- lift (float_div 6 (num_hidden + num_visible)) ;;
  let high := 0.1 * sqrt q in
  w <- lift (uniform np_rng low high num_visible num_hidden) ;;
  set_weights w ;;
  w <- get_weights ;;
  set_weights (np_insert_row 0 w) ;;
  w <- get_weights ;;
  set_weights (np_insert_col 0 w).

(** the call [RBM(num_visible, num_hidden)]: [__init__] on a new object,
    which is the value of the call *)
Definition construct (num_visible num_hidden : Z) : M RBM :=
  __init__ num_visible num_hidden ;;
  (fun s => (Ok (self s), s)).

(** the array [__init__] stores in [self.weights] when nothing raises *)
Definition initial_weights (num_visible num_hidden : Z) : ndarray :=
  let low := -0.1 * sqrt (6 / IZR (num_hidden + num_visible)) in
  let high := 0.1 * sqrt (6 / IZR (num_hidden + num_visible)) in
  np_insert_col 0
    (np_insert_row 0
       (nd_map (fun u => low + (high - low) * u)
          (NdArray (Z.to_nat num_hidden)
             (draw_rows (mt19937 1234) 0 (Z.to_nat num_visible) (Z.to_nat num_hidden))))).

End Init.

(** the body of the loop of [train] *)
Definition train_epoch (data : ndarray) (num_examples : nat)
    (learning_rate : R) (epoch : Z) : M unit :=
  W <- get_weights ;;
  pos_hidden_activations <- lift (np_dot data W) ;;
  let pos_hidden_probs := nd_map _logistic pos_hidden_activations in
  pos_hidden_probs <- lift (set_col0 1 pos_hidden_probs) ;;
  H <- get_num_hidden ;;
  r <- np_random_rand (Z.of_nat num_examples) (H + 1) ;;
  pos_hidden_states <- lift (nd_zip greater pos_hidden_probs r) ;;
  pos_associations <- lift (np_dot (T data) pos_hidden_probs) ;;
  W <- get_weights ;;
  neg_visible_activations <- lift (np_dot pos_hidden_states (T W)) ;;
  let neg_visible_probs := nd_map _logistic neg_visible_activations in
  neg_visible_probs <- lift (set_col0 1 neg_visible_probs) ;;
  W <- get_weights ;;
  neg_hidden_activations <- lift (np_dot neg_visible_probs W) ;;
  let neg_hidden_probs := nd_map _logistic neg_hidden_activations in
  neg_associations <- lift (np_dot (T neg_visible_probs) neg_hidden_probs) ;;
  W <- get_weights ;;
  d <- lift (nd_zip Rminus pos_associations neg_associations) ;;
  W' <- lift (nd_zip Rplus W
                (nd_map (fun x => learning_rate * x)
                   (nd_map (fun x => x / INR num_examples) d))) ;;
  set_weights W' ;;
  diff <- lift (nd_zip Rminus data neg_visible_probs) ;;
  let error := np_sum (nd_map (fun x => x ^ 2) diff) in
  dbg <- get_debug_print ;;
  if dbg then print epoch error else ret tt.

Definition train (data : ndarray) (max_epochs : Z) (learning_rate : R) : M unit :=
  let num_examples := shape0 data in
  let data := np_insert_col 1 data in
  for_each (range 0 max_epochs)
    (fun epoch _ => train_epoch data num_examples learning_rate epoch) tt.

Definition run_visible (data : ndarray) : M ndarray :=
  let num_examples := shape0 data in
  H <- get_num_hidden ;;
  hidden_states <- lift (np_ones (Z.of_nat num_examples) (H + 1)) ;;
  let data := np_insert_col 1 data in
  W <- get_weights ;;
  hidden_activations <- lift (np_dot data W) ;;
  let hidden_probs := nd_map _logistic hidden_activations in
  H <- get_num_hidden ;;
  r <- np_random_rand (Z.of_nat num_examples) (H + 1) ;;
  b <- lift (nd_zip greater hidden_probs r) ;;
  hidden_states <- lift (assign_all hidden_states b) ;;
  let hidden_states := drop_col0 hidden_states in
  ret hidden_states.

Definition run_hidden (data : ndarray) : M ndarray :=
  let num_examples := shape0 data in
  V <- get_num_visible ;;
  visible_states <- lift (np_ones (Z.of_nat num_examples) (V + 1)) ;;
  let data := np_insert_col 1 data in
  W <- get_weights ;;
  visible_activations <- lift (np_dot data (T W)) ;;
  let visible_probs := nd_map _logistic visible_activations in
  V <- get_num_visible ;;
  r <- np_random_rand (Z.of_nat num_examples) (V + 1) ;;
  b <- lift (nd_zip greater visible_probs r) ;;
  visible_states <- lift (assign_all visible_states b) ;;
  let visible_states := drop_col0 visible_states in
  ret visible_states.

(** the body of the loop of [daydream] *)
Definition daydream_step (i : Z) (samples : ndarray) : M ndarray :=
  visible <- lift (get_row samples (i - 1)) ;;
  W <- get_weights ;;
  hidden_activations <- lift (np_dot1 visible W) ;;
  let hidden_probs := map _logistic hidden_activations in
  H <- get_num_hidden ;;
  r <- np_random_rand1 (H + 1) ;;
  hidden_states <- lift (vec_zip greater hidden_probs r) ;;
  hidden_states <- lift (vec_set0 1 hidden_states) ;;
  W <- get_weights ;;
  visible_activations <- lift (np_dot1 hidden_states (T W)) ;;
  let visible_probs := map _logistic visible_activations in
  V <- get_num_visible ;;
  r <- np_random_rand1 (V + 1) ;;
  visible_states <- lift (vec_zip greater visible_probs r) ;;
  lift (set_row samples i visible_states).

Definition daydream (num_samples : Z) : M ndarray :=
  V <- get_num_visible ;;
  samples <- lift (np_ones num_samples (V + 1)) ;;
  V <- get_num_visible ;;
  r <- np_random_rand1 V ;;
  samples <- lift (set_row0_from1 samples r) ;;
  samples <- for_each (range 1 num_samples) daydream_step samples ;;
  ret (drop_col0 samples).

(** ** The class invariant *)

(** what [__init__] establishes and [train] keeps: the weights are a
    [(num_visible + 1) x (num_hidden + 1)] array *)
Definition wf_engine (o : RBM) : Prop :=
  (0 <= num_visible o)%Z /\ (0 <= num_hidden o)%Z /\
  wf (weights o) /\
  shape0 (weights o) = Z.to_nat (num_visible o + 1) /\
  ncols (weights o) = Z.to_nat (num_hidden o + 1).

(** every entry is 0 or 1 *)
Definition binary (l : list R) : Prop := Forall (fun x => x = 0 \/ x = 1) l.

(** ** Contrastive divergence as the specification words it

    Matrices are functions from a row and a column index to an entry; a
    product names the number of terms of its sums. *)

Module Spec.

Definition matrix : Type := nat -> nat -> R.

Definition logistic (x : R) : R := 1 / (1 + exp (- x)).

Definition matmul (n : nat) (A B : matrix) : matrix :=
  fun i j => Rsum n (fun k => A i k * B k j).

Definition transpose (A : matrix) : matrix := fun i j => A j i.

Definition apply (f : R -> R) (A : matrix) : matrix := fun i j => f (A i j).

Definition force_col0 (A : matrix) : matrix :=
  fun i j => match j with O => 1 | S _ => A i j end.

(** the data with a constant bias column of 1s at index 0 *)
Definition augment (D : matrix) : matrix :=
  fun i j => match j with O => 1 | S j' => D i j' end.

(** 1 iff the probability exceeds the uniform draw *)
Definition binarize (P U : matrix) : matrix :=
  fun i j => if Rgt_dec (P i j) (U i j) then 1 else 0.

Section Epoch.

Variables (V H N : nat) (learningRate : R).
Variable W : matrix.        (* the weights before the epoch *)
Variable data : matrix.     (* the augmented data *)
Variable U : matrix.        (* the uniform draws of the epoch *)

Definition posHiddenProb : matrix :=
  force_col0 (apply logistic (matmul (S V) data W)).

Definition posHiddenState : matrix := binarize posHiddenProb U.

Definition posAssociations : matrix := matmul N (transpose data) posHiddenProb.

Definition negVisibleProb : matrix :=
  force_col0 (apply logistic (matmul (S H) posHiddenState (transpose W))).

Definition negHiddenProb : matrix :=
  apply logistic (matmul (S V) negVisibleProb W).

Definition negAssociations : matrix :=
  matmul N (transpose negVisibleProb) negHiddenProb.

Definition update : matrix :=
  fun i j =>
    W i j + learningRate * (posAssociations i j - negAssociations i j) / INR N.

End Epoch.

End Spec.

(** the draws of [np.random.rand(n, m)] as a matrix indexed by row and column *)
Definition rand_entry (g : RandomState) (m : nat) : Spec.matrix :=
  fun i j => stream g (cursor g + i * m + j).

(** ** The arrays of one epoch

    The values the local variables of the loop body of [train] hold when no
    operation raises, as functions of the augmented data [X], the weights
    [W] and the array [U] that [np.random.rand] returned. *)

Module Epoch.

Definition pos_hidden_probs (X W : ndarray) : ndarray :=
  pin_col0 1 (nd_map _logistic (dot X W)).

Definition pos_hidden_states (X W U : ndarray) : ndarray :=
  zip_nd greater (pos_hidden_probs X W) U.

Definition pos_associations (X W : ndarray) : ndarray :=
  dot (T X) (pos_hidden_probs X W).

Definition neg_visible_probs (X W U : ndarray) : ndarray :=
  pin_col0 1 (nd_map _logistic (dot (pos_hidden_states X W U) (T W))).

Definition neg_hidden_probs (X W U : ndarray) : ndarray :=
  nd_map _logistic (dot (neg_visible_probs X W U) W).

Definition neg_associations (X W U : ndarray) : ndarray :=
  dot (T (neg_visible_probs X W U)) (neg_hidden_probs X W U).

Definition new_weights (X W U : ndarray) (num_examples : nat) (learning_rate : R) : ndarray :=
  zip_nd Rplus W
    (nd_map (fun x => learning_rate * x)
       (nd_map (fun x => x / INR num_examples)
          (zip_nd Rminus (pos_associations X W) (neg_associations X W U)))).

Definition error (X W U : ndarray) : R :=
  np_sum (nd_map (fun x => x ^ 2) (zip_nd Rminus X (neg_visible_probs X W U))).

End Epoch.

(** ** The vectors of one step of the Gibbs chain

    The values [hidden_states] and [visible_states] hold at the end of an
    iteration of the loop of [daydream] when no operation raises, as
    functions of the weights [W], the generator [g] the iteration starts
    with, the two lengths [h = num_hidden + 1] and [v = num_visible + 1]
    and the vector [visible] the iteration starts from. *)

Module Gibbs.

Definition hidden_states (W : ndarray) (g : RandomState) (h : nat)
    (visible : list R) : list R :=
  1 :: tl (zip_with greater (map _logistic (dot_row W visible)) (draws g h)).

Definition visible_states (W : ndarray) (g : RandomState) (h v : nat)
    (visible : list R) : list R :=
  zip_with greater
    (map _logistic (dot_row (T W) (hidden_states W g h visible)))
    (draws (advance g h) v).

End Gibbs.

(** [m] never changes [self]: neither when it returns nor when it raises *)
Definition preserves_self {A : Type} (m : M A) : Prop :=
  forall s, self (snd (m s)) = self s.

(** the array [np.random.rand(n, m)] returns from generator [g] *)
Definition rand_array (g : RandomState) (n m : nat) : ndarray :=
  NdArray m (draw_rows (stream g) (cursor g) n m).

(** ** The data of the script

    [training_data] is the array of the [__main__] block; [demo_state] is a
    process whose engine has 6 visible and 2 hidden units and weights still
    at zero, and whose global generator yields 0.75 forever. *)

Definition training_data : ndarray :=
  NdArray 6 [[1;1;0;0;1;1];
             [1;1;0;1;1;0];
             [1;1;1;0;0;1];
             [1;1;0;1;1;0];
             [1;1;0;0;1;0];
             [1;1;1;0;1;0]].

Definition constant_stream (x : R) : RandomState :=
  {| stream := fun _ => x; cursor := 0 |}.

Definition demo_engine : RBM :=
  {| num_hidden := 2; num_visible := 6; debug_print := true;
     weights := NdArray 3 (repeat [0;0;0] 7) |}.

Definition demo_state : state :=
  {| self := demo_engine; np_random := constant_stream 0.75; stdout := [] |}.

(** doubles of [[0, 1)] to stand for those of [RandomState(1234)] *)
Definition sample_doubles (seed : Z) (i : nat) : R :=
  nth i [0.19; 0.62; 0.44; 0.79; 0.78; 0.27; 0.28; 0.80; 0.96; 0.88; 0.36; 0.50] 0.5.

(** an array of two columns, which [demo_engine] has no use for *)
Definition two_columns : ndarray := NdArray 2 [[1;0]; [0;1]].

(** ** The script

    The [__main__] block builds [RBM(6, 2)], trains it on [training_data]
    for 1000 epochs at the default learning rate and, for [w] from 1 to 6,
    prints the feature [F[w-1]] and the sum [r.weights[w,1] + r.weights[w,2]].
    [main] is that program; the lines of the final loop are its value
    (the text the script prints around them, which depends on nothing, is
    left out). *)

(** [l[i]] on a Python list *)
Definition list_get {A : Type} (l : list A) (i : Z) : result A :=
  match index (length l) i with
  | Some k =>
      match nth_error l k with
      | Some x => Ok x
      | None => Raise IndexError
      end
  | None => Raise IndexError
  end.

(** [m[i, j]] *)
Definition get_entry (m : ndarray) (i j : Z) : result R :=
  match index (shape0 m) i, index (ncols m) j with
  | Some a, Some b => Ok (entry m a b)
  | _, _ => Raise IndexError
  end.

Definition F : list String.string :=
  ["love"%string; "happiness"%string; "family"%string;
   "horizons"%string; "action"%string; "violence"%string].

(** the body of [for w in range(7)] *)
Definition report_line (w : Z) (lines : list (String.string * R)) :
    M (list (String.string * R)) :=
  if (w >? 0)%Z then
    label <- lift (list_get F (w - 1)) ;;
    W <- get_weights ;;
    a <- lift (get_entry W w 1) ;;
    W <- get_weights ;;
    b <- lift (get_entry W w 2) ;;
    ret (lines ++ [(label, a + b)])%list
  else ret lines.

Definition main (mt19937 : Z -> nat -> R) : M (list (String.string * R)) :=
  __init__ mt19937 6 2 ;;
  train training_data 1000 0.1 ;;
  for_each (range 0 7) report_line [].

(** * Properties *)

(** ** Lists and sums *)

Lemma nth_map_gen {A B : Type} (f : A -> B) (l : list A) (d : A) (d' : B) (n : nat) :
  f d = d' -> nth n (map f l) d' = f (nth n l d).
Proof.
  intros <-. apply map_nth.
Qed.

Lemma nth_map_lt {A B : Type} (f : A -> B) (l : list A) (d : A) (d' : B) (n : nat) :
  (n < length l)%nat -> nth n (map f l) d' = f (nth n l d).
Proof.
  revert n. induction l as [|x l IH]; intros [|n] Hn; simpl in *; try lia.
  - reflexivity.
  - apply IH. lia.
Qed.

Lemma nth_nil_R (j : nat) : nth j (@nil R) 0 = 0.
Proof. destruct j; reflexivity. Qed.

Lemma Rsum_ext (n : nat) (f g : nat -> R) :
  (forall k, (k < n)%nat -> f k = g k) -> Rsum n f = Rsum n g.
Proof.
  intros Hfg. unfold Rsum. f_equal. apply map_ext_in.
  intros k Hk. apply in_seq in Hk. apply Hfg. lia.
Qed.

Lemma Rsum_S (n : nat) (f : nat -> R) :
  Rsum (S n) f = f O + Rsum n (fun k => f (S k)).
Proof.
  unfold Rsum. simpl. rewrite <- seq_shift, map_map. reflexivity.
Qed.

Lemma inner_Rsum (u v : list R) :
  length u = length v ->
  inner u v = Rsum (length u) (fun k => nth k u 0 * nth k v 0).
Proof.
  revert v. induction u as [|x u IH]; intros [|y v] Hlen; simpl in *; try discriminate.
  - reflexivity.
  - rewrite Rsum_S. simpl. rewrite IH by lia. reflexivity.
Qed.

Lemma length_zip_with (f : R -> R -> R) (u v : list R) :
  length u = length v -> length (zip_with f u v) = length u.
Proof.
  revert v. induction u as [|x u IH]; intros [|y v] Hlen; simpl in *; try discriminate.
  - reflexivity.
  - rewrite IH by lia. reflexivity.
Qed.

Lemma nth_zip_with (f : R -> R -> R) (u v : list R) (j : nat) :
  length u = length v -> (j < length u)%nat ->
  nth j (zip_with f u v) 0 = f (nth j u 0) (nth j v 0).
Proof.
  revert v j. induction u as [|x u IH]; intros [|y v] [|j] Hlen Hj; simpl in *;
    try discriminate; try lia.
  - reflexivity.
  - apply IH; lia.
Qed.

Lemma length_zip_rows (f : R -> R -> R) (a b : list (list R)) :
  length a = length b -> length (zip_rows f a b) = length a.
Proof.
  revert b. induction a as [|r a IH]; intros [|s b] Hlen; simpl in *; try discriminate.
  - reflexivity.
  - rewrite IH by lia. reflexivity.
Qed.

Lemma nth_zip_rows (f : R -> R -> R) (a b : list (list R)) (i : nat) :
  length a = length b -> (i < length a)%nat ->
  nth i (zip_rows f a b) [] = zip_with f (nth i a []) (nth i b []).
Proof.
  revert b i. induction a as [|r a IH]; intros [|s b] [|i] Hlen Hi; simpl in *;
    try discriminate; try lia.
  - reflexivity.
  - apply IH; lia.
Qed.

Lemma zip_with_binary (u v : list R) : binary (zip_with greater u v).
Proof.
  revert v. induction u as [|x u IH]; intros [|y v]; simpl; try constructor.
  - unfold greater. destruct (Rgt_dec x y); auto.
  - apply IH.
Qed.

Lemma length_draw_rows (s : nat -> R) (pos n m : nat) :
  length (draw_rows s pos n m) = n.
Proof.
  revert pos. induction n as [|n IH]; intros pos; simpl; [reflexivity|].
  rewrite IH. reflexivity.
Qed.

Lemma Forall_draw_rows (s : nat -> R) (pos n m : nat) :
  Forall (fun r => length r = m) (draw_rows s pos n m).
Proof.
  revert pos. induction n as [|n IH]; intros pos; simpl; constructor.
  - rewrite length_map, length_seq. reflexivity.
  - apply IH.
Qed.

Lemma nth_draw_rows (s : nat -> R) (pos n m i j : nat) :
  (i < n)%nat -> (j < m)%nat ->
  nth j (nth i (draw_rows s pos n m) []) 0 = s (pos + i * m + j)%nat.
Proof.
  revert pos i. induction n as [|n IH]; intros pos [|i] Hi Hj; simpl; try lia.
  - rewrite (nth_map_lt s _ O) by (rewrite length_seq; exact Hj).
    rewrite seq_nth by exact Hj. f_equal. lia.
  - rewrite IH by lia. f_equal. lia.
Qed.

Lemma Forall_nth_len (l : list (list R)) (c i : nat) :
  Forall (fun r => length r = c) l -> (i < length l)%nat -> length (nth i l []) = c.
Proof.
  intros Hall Hi. rewrite Forall_forall in Hall. apply Hall. apply nth_In. exact Hi.
Qed.

Lemma length_replace_nth {A : Type} (k : nat) (x : A) (l : list A) :
  length (replace_nth k x l) = length l.
Proof.
  revert k. induction l as [|y l IH]; intros [|k]; simpl; auto.
Qed.

Lemma nth_replace_nth {A : Type} (k i : nat) (x d : A) (l : list A) :
  (k < length l)%nat ->
  nth i (replace_nth k x l) d = if Nat.eqb i k then x else nth i l d.
Proof.
  revert k i. induction l as [|y l IH]; intros [|k] [|i] Hk; simpl in *; try lia; auto.
  apply IH. lia.
Qed.

Lemma Forall_replace_nth {A : Type} (P : A -> Prop) (k : nat) (x : A) (l : list A) :
  Forall P l -> P x -> Forall P (replace_nth k x l).
Proof.
  intros Hl Hx. revert k. induction Hl as [|y l Hy Hl IH]; intros [|k]; simpl;
    constructor; auto.
Qed.

(** ** Shapes and entries of the array operations *)

Lemma wf_nth_len (m : ndarray) (i : nat) :
  wf m -> (i < shape0 m)%nat -> length (nth i (rows m) []) = ncols m.
Proof.
  intros Hm Hi. apply Forall_nth_len; assumption.
Qed.

Lemma shape0_insert_col (v : R) (m : ndarray) :
  shape0 (np_insert_col v m) = shape0 m.
Proof. unfold shape0; simpl. apply length_map. Qed.

Lemma wf_insert_col (v : R) (m : ndarray) : wf m -> wf (np_insert_col v m).
Proof.
  unfold wf; simpl. intros Hm. apply Forall_map.
  eapply Forall_impl; [|exact Hm]. simpl. intros r ->. reflexivity.
Qed.

Lemma entry_insert_col (v : R) (m : ndarray) (i j : nat) :
  (i < shape0 m)%nat ->
  entry (np_insert_col v m) i j =
  match j with O => v | S j' => entry m i j' end.
Proof.
  intros Hi. unfold entry; simpl.
  rewrite (nth_map_lt (cons v) _ []) by exact Hi. destruct j; reflexivity.
Qed.

Lemma wf_insert_row (v : R) (m : ndarray) : wf m -> wf (np_insert_row v m).
Proof.
  unfold wf; simpl. intros Hm. constructor; [apply repeat_length | exact Hm].
Qed.

Lemma length_cols (m : ndarray) : length (cols m) = ncols m.
Proof. unfold cols. rewrite length_map, length_seq. reflexivity. Qed.

Lemma nth_cols (m : ndarray) (j : nat) :
  (j < ncols m)%nat -> nth j (cols m) [] = map (fun r => nth j r 0) (rows m).
Proof.
  intros Hj. unfold cols.
  rewrite (nth_map_lt _ _ O) by (rewrite length_seq; exact Hj).
  rewrite seq_nth by exact Hj. reflexivity.
Qed.

Lemma shape0_T (m : ndarray) : shape0 (T m) = ncols m.
Proof. apply length_cols. Qed.

Lemma wf_T (m : ndarray) : wf (T m).
Proof.
  unfold wf, T, cols; simpl. apply Forall_map, Forall_forall. intros j _.
  apply length_map.
Qed.

Lemma entry_T (m : ndarray) (i j : nat) :
  (i < ncols m)%nat -> entry (T m) i j = entry m j i.
Proof.
  intros Hi. unfold entry, T; simpl. rewrite nth_cols by exact Hi.
  apply (nth_map_gen (fun r => nth i r 0)). apply nth_nil_R.
Qed.

Lemma shape0_dot (a b : ndarray) : shape0 (dot a b) = shape0 a.
Proof. unfold shape0, dot; simpl. apply length_map. Qed.

Lemma length_dot_row (b : ndarray) (r : list R) : length (dot_row b r) = ncols b.
Proof. unfold dot_row. rewrite length_map. apply length_cols. Qed.

Lemma wf_dot (a b : ndarray) : wf (dot a b).
Proof.
  unfold wf, dot; simpl. apply Forall_map, Forall_forall. intros r _.
  apply length_dot_row.
Qed.

Lemma nth_dot_row (b : ndarray) (r : list R) (j : nat) :
  length r = shape0 b -> (j < ncols b)%nat ->
  nth j (dot_row b r) 0 = Rsum (shape0 b) (fun k => nth k r 0 * entry b k j).
Proof.
  intros Hr Hj. unfold dot_row.
  rewrite (nth_map_lt (inner r) _ []) by (rewrite length_cols; exact Hj).
  rewrite nth_cols by exact Hj.
  rewrite inner_Rsum by (rewrite length_map; exact Hr).
  rewrite Hr. apply Rsum_ext. intros k _. f_equal.
  apply (nth_map_gen (fun r' => nth j r' 0)). apply nth_nil_R.
Qed.

Lemma entry_dot (a b : ndarray) (i j : nat) :
  wf a -> ncols a = shape0 b -> (i < shape0 a)%nat -> (j < ncols b)%nat ->
  entry (dot a b) i j = Rsum (ncols a) (fun k => entry a i k * entry b k j).
Proof.
  intros Ha Hab Hi Hj. unfold entry at 1, dot; simpl.
  rewrite (nth_map_lt (dot_row b) _ []) by exact Hi.
  rewrite nth_dot_row; [rewrite <- Hab; reflexivity | | exact Hj].
  rewrite wf_nth_len by assumption. exact Hab.
Qed.

Lemma shape0_nd_map (f : R -> R) (m : ndarray) : shape0 (nd_map f m) = shape0 m.
Proof. unfold shape0, nd_map; simpl. apply length_map. Qed.

Lemma wf_nd_map (f : R -> R) (m : ndarray) : wf m -> wf (nd_map f m).
Proof.
  unfold wf, nd_map; simpl. intros Hm. apply Forall_map.
  eapply Forall_impl; [|exact Hm]. simpl. intros r <-. apply length_map.
Qed.

Lemma entry_nd_map (f : R -> R) (m : ndarray) (i j : nat) :
  wf m -> (i < shape0 m)%nat -> (j < ncols m)%nat ->
  entry (nd_map f m) i j = f (entry m i j).
Proof.
  intros Hm Hi Hj. unfold entry, nd_map; simpl.
  rewrite (nth_map_lt (map f) _ []) by exact Hi.
  apply nth_map_lt. rewrite wf_nth_len by assumption. exact Hj.
Qed.

Lemma shape0_zip_nd (f : R -> R -> R) (a b : ndarray) :
  shape0 a = shape0 b -> shape0 (zip_nd f a b) = shape0 a.
Proof. intros Hab. unfold shape0, zip_nd; simpl. apply length_zip_rows. exact Hab. Qed.

Lemma wf_zip_nd (f : R -> R -> R) (a b : ndarray) :
  wf a -> wf b -> ncols a = ncols b -> wf (zip_nd f a b).
Proof.
  unfold wf, zip_nd; simpl. intros Ha Hb Hc. rewrite <- Hc in Hb.
  set (c := ncols a) in *. clearbody c. revert Hb. generalize (rows b).
  induction Ha as [|r ra Hr Ha IH]; intros [|s rb] Hb; simpl; constructor.
  - inversion Hb; subst. apply length_zip_with. congruence.
  - inversion Hb; subst. apply IH. assumption.
Qed.

Lemma entry_zip_nd (f : R -> R -> R) (a b : ndarray) (i j : nat) :
  wf a -> wf b -> shape0 a = shape0 b -> ncols a = ncols b ->
  (i < shape0 a)%nat -> (j < ncols a)%nat ->
  entry (zip_nd f a b) i j = f (entry a i j) (entry b i j).
Proof.
  intros Ha Hb Hs Hc Hi Hj. unfold entry, zip_nd; simpl.
  rewrite nth_zip_rows by assumption.
  assert (La : length (nth i (rows a) []) = ncols a) by (apply wf_nth_len; assumption).
  assert (Lb : length (nth i (rows b) []) = ncols b)
    by (apply wf_nth_len; [assumption | rewrite <- Hs; assumption]).
  apply nth_zip_with; congruence.
Qed.

Lemma set_col0_eq (v : R) (m : ndarray) :
  ncols m <> O -> set_col0 v m = Ok (pin_col0 v m).
Proof.
  intros Hc. unfold set_col0, pin_col0. destruct (ncols m); [contradiction | reflexivity].
Qed.

Lemma shape0_pin_col0 (v : R) (m : ndarray) : shape0 (pin_col0 v m) = shape0 m.
Proof. unfold shape0, pin_col0; simpl. apply length_map. Qed.

Lemma wf_pin_col0 (v : R) (m : ndarray) : wf m -> wf (pin_col0 v m).
Proof.
  unfold wf, pin_col0; simpl. intros Hm. apply Forall_map.
  eapply Forall_impl; [|exact Hm]. simpl. intros [|x r] <-; reflexivity.
Qed.

Lemma entry_pin_col0 (v : R) (m : ndarray) (i j : nat) :
  wf m -> (i < shape0 m)%nat -> ncols m <> O ->
  entry (pin_col0 v m) i j = match j with O => v | S _ => entry m i j end.
Proof.
  intros Hm Hi Hc. unfold entry, pin_col0; simpl.
  rewrite (nth_map_lt (pin0 v) _ []) by exact Hi.
  pose proof (wf_nth_len m i Hm Hi) as Hlen.
  destruct (nth i (rows m) []) as [|x r]; simpl in *; [congruence|].
  destruct j; reflexivity.
Qed.

Lemma np_dot_eq (a b : ndarray) :
  ncols a = shape0 b -> np_dot a b = Ok (dot a b).
Proof. intros Hab. unfold np_dot. rewrite Hab, Nat.eqb_refl. reflexivity. Qed.

Lemma np_dot_mismatch (a b : ndarray) :
  ncols a <> shape0 b -> np_dot a b = Raise ValueError.
Proof.
  intros Hab. unfold np_dot. apply Nat.eqb_neq in Hab. rewrite Hab. reflexivity.
Qed.

Lemma nd_zip_eq (f : R -> R -> R) (a b : ndarray) :
  shape0 a = shape0 b -> ncols a = ncols b -> nd_zip f a b = Ok (zip_nd f a b).
Proof.
  intros Hs Hc. unfold nd_zip, same_shape. rewrite Hs, Hc, !Nat.eqb_refl. reflexivity.
Qed.

(** ** One epoch of [train] *)

Lemma _logistic_spec (x : R) : _logistic x = Spec.logistic x.
Proof. unfold _logistic, Spec.logistic. f_equal. lra. Qed.

Lemma wf_rand_array (g : RandomState) (n m : nat) : wf (rand_array g n m).
Proof. unfold wf, rand_array; simpl. apply Forall_draw_rows. Qed.

Lemma shape0_rand_array (g : RandomState) (n m : nat) : shape0 (rand_array g n m) = n.
Proof. unfold shape0, rand_array; simpl. apply length_draw_rows. Qed.

Lemma entry_rand_array (g : RandomState) (n m i j : nat) :
  (i < n)%nat -> (j < m)%nat -> entry (rand_array g n m) i j = rand_entry g m i j.
Proof. intros Hi Hj. unfold entry, rand_array, rand_entry; simpl. apply nth_draw_rows; assumption. Qed.

Lemma np_random_rand_eq (n m : nat) (d0 d1 : Z) (s : state) :
  d0 = Z.of_nat n -> d1 = Z.of_nat m ->
  np_random_rand d0 d1 s =
  (Ok (rand_array (np_random s) n m),
   {| self := self s; np_random := advance (np_random s) (n * m); stdout := stdout s |}).
Proof.
  intros -> ->. unfold np_random_rand.
  replace ((Z.of_nat n <? 0)%Z || (Z.of_nat m <? 0)%Z) with false
    by (symmetry; apply orb_false_iff; split; apply Z.ltb_ge; lia).
  rewrite !Nat2Z.id. reflexivity.
Qed.

Section EpochShapes.

Variables (X W U : ndarray) (N V H : nat).
Hypothesis HX : wf X.
Hypothesis HX0 : shape0 X = N.
Hypothesis HX1 : ncols X = S V.
Hypothesis HW : wf W.
Hypothesis HW0 : shape0 W = S V.
Hypothesis HW1 : ncols W = S H.
Hypothesis HU : wf U.
Hypothesis HU0 : shape0 U = N.
Hypothesis HU1 : ncols U = S H.

Lemma php_shape :
  wf (Epoch.pos_hidden_probs X W) /\
  shape0 (Epoch.pos_hidden_probs X W) = N /\
  ncols (Epoch.pos_hidden_probs X W) = S H.
Proof.
  unfold Epoch.pos_hidden_probs. repeat split.
  - apply wf_pin_col0, wf_nd_map, wf_dot.
  - rewrite shape0_pin_col0, shape0_nd_map, shape0_dot. exact HX0.
  - simpl. exact HW1.
Qed.

Lemma phs_shape :
  wf (Epoch.pos_hidden_states X W U) /\
  shape0 (Epoch.pos_hidden_states X W U) = N /\
  ncols (Epoch.pos_hidden_states X W U) = S H.
Proof.
  destruct php_shape as (Hw & H0 & H1). unfold Epoch.pos_hidden_states. repeat split.
  - apply wf_zip_nd; [assumption | assumption | congruence].
  - rewrite shape0_zip_nd by congruence. exact H0.
  - simpl. exact H1.
Qed.

Lemma nvp_shape :
  wf (Epoch.neg_visible_probs X W U) /\
  shape0 (Epoch.neg_visible_probs X W U) = N /\
  ncols (Epoch.neg_visible_probs X W U) = S V.
Proof.
  destruct phs_shape as (Hw & H0 & H1). unfold Epoch.neg_visible_probs. repeat split.
  - apply wf_pin_col0, wf_nd_map, wf_dot.
  - rewrite shape0_pin_col0, shape0_nd_map, shape0_dot. exact H0.
  - simpl. exact HW0.
Qed.

Lemma nhp_shape :
  wf (Epoch.neg_hidden_probs X W U) /\
  shape0 (Epoch.neg_hidden_probs X W U) = N /\
  ncols (Epoch.neg_hidden_probs X W U) = S H.
Proof.
  destruct nvp_shape as (Hw & H0 & H1). unfold Epoch.neg_hidden_probs. repeat split.
  - apply wf_nd_map, wf_dot.
  - rewrite shape0_nd_map, shape0_dot. exact H0.
  - simpl. exact HW1.
Qed.

Lemma pa_shape :
  wf (Epoch.pos_associations X W) /\
  shape0 (Epoch.pos_associations X W) = S V /\
  ncols (Epoch.pos_associations X W) = S H.
Proof.
  destruct php_shape as (Hw & H0 & H1). unfold Epoch.pos_associations. repeat split.
  - apply wf_dot.
  - rewrite shape0_dot, shape0_T. exact HX1.
  - simpl. exact HW1.
Qed.

Lemma na_shape :
  wf (Epoch.neg_associations X W U) /\
  shape0 (Epoch.neg_associations X W U) = S V /\
  ncols (Epoch.neg_associations X W U) = S H.
Proof.
  destruct nvp_shape as (Hw & H0 & H1). unfold Epoch.neg_associations. repeat split.
  - apply wf_dot.
  - rewrite shape0_dot, shape0_T. exact H1.
  - simpl. exact HW1.
Qed.

Lemma new_weights_shape (lr : R) :
  wf (Epoch.new_weights X W U N lr) /\
  shape0 (Epoch.new_weights X W U N lr) = S V /\
  ncols (Epoch.new_weights X W U N lr) = S H.
Proof.
  destruct pa_shape as (Hpw & Hp0 & Hp1). destruct na_shape as (Hnw & Hn0 & Hn1).
  unfold Epoch.new_weights.
  assert (Hd : wf (zip_nd Rminus (Epoch.pos_associations X W) (Epoch.neg_associations X W U)))
    by (apply wf_zip_nd; [assumption | assumption | congruence]).
  repeat split.
  - apply wf_zip_nd; [assumption | apply wf_nd_map, wf_nd_map, Hd | simpl; congruence].
  - rewrite shape0_zip_nd; [exact HW0|].
    rewrite !shape0_nd_map, shape0_zip_nd by congruence. congruence.
  - simpl. exact HW1.
Qed.

End EpochShapes.

(** the state an epoch leaves *)
Lemma train_epoch_run (X : ndarray) (N V H : nat) (lr : R) (epoch : Z) (s : state) :
  wf X -> shape0 X = N -> ncols X = S V ->
  wf (weights (self s)) -> shape0 (weights (self s)) = S V ->
  ncols (weights (self s)) = S H ->
  num_hidden (self s) = Z.of_nat H ->
  let W := weights (self s) in
  let U := rand_array (np_random s) N (S H) in
  train_epoch X N lr epoch s =
  (Ok tt,
   {| self := {| num_hidden := num_hidden (self s);
                 num_visible := num_visible (self s);
                 debug_print := debug_print (self s);
                 weights := Epoch.new_weights X W U N lr |};
      np_random := advance (np_random s) (N * S H);
      stdout := if debug_print (self s)
                then (stdout s ++ [(epoch, Epoch.error X W U)])%list
                else stdout s |}).
Proof.
  intros HX HX0 HX1 HW HW0 HW1 HH W U. fold W in HW, HW0, HW1.
  assert (HU : wf U) by apply wf_rand_array.
  assert (HU0 : shape0 U = N) by apply shape0_rand_array.
  assert (HU1 : ncols U = S H) by reflexivity.
  destruct (php_shape X W N H) as (Hpw & Hp0 & Hp1); try assumption.
  destruct (phs_shape X W U N H) as (Hsw & Hs0 & Hs1); try assumption.
  destruct (nvp_shape X W U N V H) as (Hvw & Hv0 & Hv1); try assumption.
  destruct (nhp_shape X W U N V H) as (Hhw & Hh0 & Hh1); try assumption.
  destruct (pa_shape X W N V H) as (Haw & Ha0 & Ha1); try assumption.
  destruct (na_shape X W U N V H) as (Hnw & Hn0 & Hn1); try assumption.
  unfold train_epoch, bind, lift, get_weights, get_num_hidden, get_debug_print.
  cbv zeta. fold W.
  rewrite (np_dot_eq X W) by congruence.
  cbv beta iota.
  rewrite set_col0_eq by (simpl; fold W; rewrite HW1; discriminate).
  fold (Epoch.pos_hidden_probs X W).
  rewrite (np_random_rand_eq N (S H)) by (try reflexivity; rewrite HH; lia).
  fold U. cbv beta iota. simpl self. simpl weights. fold W.
  rewrite (nd_zip_eq greater) by congruence.
  fold (Epoch.pos_hidden_states X W U).
  rewrite (np_dot_eq (T X)) by (simpl; congruence).
  fold (Epoch.pos_associations X W).
  rewrite (np_dot_eq _ (T W)) by (rewrite shape0_T; congruence).
  rewrite set_col0_eq by (simpl; rewrite HW0; discriminate).
  fold (Epoch.neg_visible_probs X W U).
  rewrite (np_dot_eq _ W) by congruence.
  fold (Epoch.neg_hidden_probs X W U).
  rewrite (np_dot_eq (T _)) by (simpl; congruence).
  fold (Epoch.neg_associations X W U).
  rewrite (nd_zip_eq Rminus) by congruence.
  rewrite (nd_zip_eq Rplus)
    by (rewrite ?shape0_nd_map, ?shape0_zip_nd by congruence; simpl; congruence).
  fold (Epoch.new_weights X W U N lr).
  unfold set_weights, set_self. cbv beta iota. simpl self. simpl debug_print.
  rewrite (nd_zip_eq Rminus X) by congruence.
  fold (Epoch.error X W U).
  unfold print, ret. cbn [self debug_print num_hidden num_visible np_random stdout].
  destruct (debug_print (self s)); reflexivity.
Qed.

(** *** The arrays of an epoch are the matrices of the specification *)

Section EpochEntries.

Variables (data W : ndarray) (g : RandomState) (V H : nat) (lr : R).
Hypothesis Hdata : wf data.
Hypothesis Hdata1 : ncols data = V.
Hypothesis HW : wf W.
Hypothesis HW0 : shape0 W = S V.
Hypothesis HW1 : ncols W = S H.

Local Abbreviation N := (shape0 data).
Local Abbreviation X := (np_insert_col 1 data).
Local Abbreviation U := (rand_array g (shape0 data) (S H)).
Local Abbreviation aug := (Spec.augment (entry data)).
Local Abbreviation Uf := (rand_entry g (S H)).

Lemma X_shape : wf X /\ shape0 X = N /\ ncols X = S V.
Proof.
  repeat split.
  - apply wf_insert_col, Hdata.
  - apply shape0_insert_col.
  - simpl. rewrite Hdata1. reflexivity.
Qed.

Lemma U_shape : wf U /\ shape0 U = N /\ ncols U = S H.
Proof.
  repeat split; [apply wf_rand_array | apply shape0_rand_array].
Qed.

Lemma X_entry (i j : nat) : (i < N)%nat -> entry X i j = aug i j.
Proof. intros Hi. apply entry_insert_col. exact Hi. Qed.

Lemma php_entry (i j : nat) :
  (i < N)%nat -> (j < S H)%nat ->
  entry (Epoch.pos_hidden_probs X W) i j = Spec.posHiddenProb V (entry W) aug i j.
Proof.
  intros Hi Hj. destruct X_shape as (HXw & HX0 & HX1).
  unfold Epoch.pos_hidden_probs, Spec.posHiddenProb, Spec.force_col0, Spec.apply, Spec.matmul.
  rewrite entry_pin_col0;
    [| apply wf_nd_map, wf_dot | rewrite shape0_nd_map, shape0_dot; lia
     | simpl; rewrite HW1; discriminate].
  destruct j as [|j]; [reflexivity|].
  rewrite entry_nd_map;
    [| apply wf_dot | rewrite shape0_dot; lia | simpl; rewrite HW1; exact Hj].
  rewrite _logistic_spec. f_equal.
  rewrite entry_dot; [| exact HXw | congruence | lia | rewrite HW1; exact Hj].
  rewrite HX1. apply Rsum_ext. intros k _. rewrite X_entry by exact Hi. reflexivity.
Qed.

Lemma phs_entry (i j : nat) :
  (i < N)%nat -> (j < S H)%nat ->
  entry (Epoch.pos_hidden_states X W U) i j =
  Spec.posHiddenState V (entry W) aug Uf i j.
Proof.
  intros Hi Hj. destruct X_shape as (HXw & HX0 & HX1). destruct U_shape as (HUw & HU0 & HU1).
  destruct (php_shape X W N H) as (Hpw & Hp0 & Hp1); try assumption.
  unfold Epoch.pos_hidden_states, Spec.posHiddenState, Spec.binarize.
  rewrite entry_zip_nd; try assumption; try congruence; try lia.
  rewrite php_entry, entry_rand_array by assumption. reflexivity.
Qed.

Lemma nvp_entry (i j : nat) :
  (i < N)%nat -> (j < S V)%nat ->
  entry (Epoch.neg_visible_probs X W U) i j =
  Spec.negVisibleProb V H (entry W) aug Uf i j.
Proof.
  intros Hi Hj. destruct X_shape as (HXw & HX0 & HX1). destruct U_shape as (HUw & HU0 & HU1).
  destruct (phs_shape X W U N H) as (Hsw & Hs0 & Hs1); try assumption.
  unfold Epoch.neg_visible_probs, Spec.negVisibleProb, Spec.force_col0, Spec.apply,
    Spec.matmul, Spec.transpose.
  rewrite entry_pin_col0;
    [| apply wf_nd_map, wf_dot | rewrite shape0_nd_map, shape0_dot; lia
     | simpl; rewrite HW0; discriminate].
  destruct j as [|j]; [reflexivity|].
  rewrite entry_nd_map;
    [| apply wf_dot | rewrite shape0_dot; lia | simpl; rewrite HW0; exact Hj].
  rewrite _logistic_spec. f_equal.
  rewrite entry_dot;
    [| exact Hsw | rewrite shape0_T; congruence | lia | simpl; rewrite HW0; exact Hj].
  rewrite Hs1. apply Rsum_ext. intros k Hk.
  rewrite phs_entry by assumption. rewrite entry_T by (rewrite HW1; exact Hk).
  reflexivity.
Qed.

Lemma nhp_entry (i j : nat) :
  (i < N)%nat -> (j < S H)%nat ->
  entry (Epoch.neg_hidden_probs X W U) i j =
  Spec.negHiddenProb V H (entry W) aug Uf i j.
Proof.
  intros Hi Hj. destruct X_shape as (HXw & HX0 & HX1). destruct U_shape as (HUw & HU0 & HU1).
  destruct (nvp_shape X W U N V H) as (Hvw & Hv0 & Hv1); try assumption.
  unfold Epoch.neg_hidden_probs, Spec.negHiddenProb, Spec.apply, Spec.matmul.
  rewrite entry_nd_map;
    [| apply wf_dot | rewrite shape0_dot; lia | simpl; rewrite HW1; exact Hj].
  rewrite _logistic_spec. f_equal.
  rewrite entry_dot; [| exact Hvw | congruence | lia | rewrite HW1; exact Hj].
  rewrite Hv1. apply Rsum_ext. intros k Hk.
  rewrite nvp_entry by assumption. reflexivity.
Qed.

Lemma pa_entry (i j : nat) :
  (i < S V)%nat -> (j < S H)%nat ->
  entry (Epoch.pos_associations X W) i j =
  Spec.posAssociations V N (entry W) aug i j.
Proof.
  intros Hi Hj. destruct X_shape as (HXw & HX0 & HX1).
  destruct (php_shape X W N H) as (Hpw & Hp0 & Hp1); try assumption.
  unfold Epoch.pos_associations, Spec.posAssociations, Spec.matmul, Spec.transpose.
  rewrite entry_dot;
    [| apply wf_T | simpl; congruence | rewrite shape0_T; lia | rewrite Hp1; exact Hj].
  change (ncols (T X)) with (shape0 X). rewrite HX0.
  apply Rsum_ext. intros k Hk.
  rewrite entry_T by lia. rewrite X_entry, php_entry by assumption. reflexivity.
Qed.

Lemma na_entry (i j : nat) :
  (i < S V)%nat -> (j < S H)%nat ->
  entry (Epoch.neg_associations X W U) i j =
  Spec.negAssociations V H N (entry W) aug Uf i j.
Proof.
  intros Hi Hj. destruct X_shape as (HXw & HX0 & HX1). destruct U_shape as (HUw & HU0 & HU1).
  destruct (nvp_shape X W U N V H) as (Hvw & Hv0 & Hv1); try assumption.
  destruct (nhp_shape X W U N V H) as (Hhw & Hh0 & Hh1); try assumption.
  unfold Epoch.neg_associations, Spec.negAssociations, Spec.matmul, Spec.transpose.
  rewrite entry_dot;
    [| apply wf_T | simpl; congruence | rewrite shape0_T; lia | rewrite Hh1; exact Hj].
  change (ncols (T (Epoch.neg_visible_probs X W U)))
    with (shape0 (Epoch.neg_visible_probs X W U)).
  rewrite Hv0. apply Rsum_ext. intros k Hk.
  rewrite entry_T by lia. rewrite nvp_entry, nhp_entry by assumption. reflexivity.
Qed.

Lemma new_weights_entry (i j : nat) :
  (i < S V)%nat -> (j < S H)%nat ->
  entry (Epoch.new_weights X W U N lr) i j =
  Spec.update V H N lr (entry W) aug Uf i j.
Proof.
  intros Hi Hj. destruct X_shape as (HXw & HX0 & HX1). destruct U_shape as (HUw & HU0 & HU1).
  destruct (pa_shape X W N V H) as (Haw & Ha0 & Ha1); try assumption.
  destruct (na_shape X W U N V H) as (Hnw & Hn0 & Hn1); try assumption.
  assert (Hd : wf (zip_nd Rminus (Epoch.pos_associations X W) (Epoch.neg_associations X W U)))
    by (apply wf_zip_nd; [assumption | assumption | congruence]).
  assert (Hd0 : shape0 (zip_nd Rminus (Epoch.pos_associations X W)
                          (Epoch.neg_associations X W U)) = S V)
    by (rewrite shape0_zip_nd; congruence).
  unfold Epoch.new_weights, Spec.update.
  rewrite entry_zip_nd; try assumption; try lia.
  - rewrite !entry_nd_map;
      try (apply wf_nd_map); try assumption; rewrite ?shape0_nd_map; simpl ncols; try lia.
    rewrite entry_zip_nd; try assumption; try congruence; try lia.
    rewrite pa_entry, na_entry by assumption. unfold Rdiv. ring.
  - apply wf_nd_map, wf_nd_map, Hd.
  - rewrite !shape0_nd_map. congruence.
  - simpl. congruence.
Qed.

End EpochEntries.

(** ** Loops *)

Lemma for_each_app {A : Type} (xs ys : list Z) (body : Z -> A -> M A) (a : A) (s : state) :
  for_each (xs ++ ys) body a s =
  match for_each xs body a s with
  | (Ok a', s') => for_each ys body a' s'
  | (Raise e, s') => (Raise e, s')
  end.
Proof.
  revert a s. induction xs as [|x xs IH]; intros a s; simpl.
  - reflexivity.
  - unfold bind. destruct (body x a s) as [[a'|e] s']; [apply IH | reflexivity].
Qed.

Lemma range_nonpositive (start stop : Z) : (stop <= start)%Z -> range start stop = [].
Proof.
  intros Hle. unfold range. replace (Z.to_nat (stop - start)) with O by lia. reflexivity.
Qed.

Lemma range_snoc (start stop : Z) :
  (start <= stop)%Z -> range start (stop + 1) = (range start stop ++ [stop])%list.
Proof.
  intros Hle. unfold range.
  replace (Z.to_nat (stop + 1 - start)) with (S (Z.to_nat (stop - start))) by lia.
  rewrite seq_S, map_app. simpl. do 2 f_equal. lia.
Qed.

Lemma range_cons (start stop : Z) :
  (start < stop)%Z -> range start stop = start :: range (start + 1) stop.
Proof.
  intros Hlt. unfold range.
  replace (Z.to_nat (stop - start)) with (S (Z.to_nat (stop - (start + 1)))) by lia.
  simpl. f_equal; [lia|]. rewrite <- seq_shift, map_map. apply map_ext. intros k. lia.
Qed.

(** ** [train] *)

Lemma wf_engine_shape (o : RBM) :
  wf_engine o ->
  shape0 (weights o) = S (Z.to_nat (num_visible o)) /\
  ncols (weights o) = S (Z.to_nat (num_hidden o)) /\
  num_hidden o = Z.of_nat (Z.to_nat (num_hidden o)).
Proof.
  intros (HV & HH & _ & H0 & H1). rewrite H0, H1. repeat split; lia.
Qed.

(** an epoch on data of [num_visible] columns succeeds and keeps the invariant *)
Lemma train_epoch_ok (data : ndarray) (lr : R) (epoch : Z) (s : state) :
  wf_engine (self s) -> wf data -> Z.of_nat (ncols data) = num_visible (self s) ->
  exists s',
    train_epoch (np_insert_col 1 data) (shape0 data) lr epoch s = (Ok tt, s') /\
    wf_engine (self s') /\
    num_visible (self s') = num_visible (self s) /\
    num_hidden (self s') = num_hidden (self s) /\
    weights (self s') =
      Epoch.new_weights (np_insert_col 1 data) (weights (self s))
        (rand_array (np_random s) (shape0 data) (S (Z.to_nat (num_hidden (self s)))))
        (shape0 data) lr.
Proof.
  intros He Hd Hc. pose proof He as (HV & HH & HWw & _ & _).
  destruct (wf_engine_shape _ He) as (HW0 & HW1 & HHn).
  assert (HVn : Z.to_nat (num_visible (self s)) = ncols data) by lia.
  rewrite HVn in HW0.
  destruct (X_shape data (ncols data) Hd eq_refl) as (HXw & HX0 & HX1).
  eexists. split.
  - apply (train_epoch_run _ (shape0 data) (ncols data) (Z.to_nat (num_hidden (self s))));
      assumption.
  - cbn [self num_visible num_hidden weights].
    destruct (new_weights_shape (np_insert_col 1 data) (weights (self s))
                (rand_array (np_random s) (shape0 data) (S (Z.to_nat (num_hidden (self s)))))
                (shape0 data) (ncols data) (Z.to_nat (num_hidden (self s))))
      with (lr := lr) as (Hnw & Hn0 & Hn1);
      try assumption; try apply wf_rand_array; try apply shape0_rand_array; try reflexivity.
    repeat split; try assumption; cbn [num_visible num_hidden weights].
    + rewrite Hn0. lia.
    + rewrite Hn1. lia.
Qed.

(** [train] runs every epoch it is asked for and keeps the invariant *)
Lemma train_ok (data : ndarray) (lr : R) (n : nat) (s : state) :
  wf_engine (self s) -> wf data -> Z.of_nat (ncols data) = num_visible (self s) ->
  exists s',
    train data (Z.of_nat n) lr s = (Ok tt, s') /\
    wf_engine (self s') /\
    num_visible (self s') = num_visible (self s) /\
    num_hidden (self s') = num_hidden (self s).
Proof.
  intros He Hd Hc. induction n as [|n IH].
  - exists s. unfold train. rewrite range_nonpositive by lia. simpl. unfold ret. auto.
  - destruct IH as (sn & Hrun & Hen & HVn & HHn).
    destruct (train_epoch_ok data lr (Z.of_nat n) sn) as (s' & Hstep & He' & HV' & HH' & _);
      try assumption; try congruence.
    exists s'. unfold train in *.
    replace (Z.of_nat (S n)) with (Z.of_nat n + 1)%Z by lia.
    rewrite range_snoc by lia. rewrite for_each_app, Hrun. simpl. unfold bind.
    rewrite Hstep. unfold ret.
    split; [reflexivity|]. split; [exact He'|]. split; congruence.
Qed.

Lemma demo_engine_wf : wf_engine demo_engine.
Proof.
  unfold wf_engine, wf, demo_engine; simpl. repeat split; try lia. repeat constructor.
Qed.

Lemma training_data_wf : wf training_data.
Proof. unfold wf, training_data; simpl. repeat constructor. Qed.

(** C1.  On data of at least one row and [num_visible] columns, [train] runs
    every epoch it is asked for, and epoch [k] takes the weights [W] it finds
    to the matrix the specification words: with the data augmented by a
    bias column of 1s,
    posHiddenProb = logistic(data . W) with column 0 forced to 1,
    posHiddenState its binarisation against the epoch's uniform draws,
    negVisibleProb = logistic(posHiddenState . W^T) with column 0 forced to 1,
    negHiddenProb = logistic(negVisibleProb . W), and the new weights are
    W + learningRate * (data^T . posHiddenProb - negVisibleProb^T . negHiddenProb) / N
    for the number N of rows of the data. *)
Theorem train_epoch_contrastive_divergence
    (data : ndarray) (max_epochs : Z) (learning_rate : R) (s : state) :
  wf_engine (self s) -> wf data -> Z.of_nat (ncols data) = num_visible (self s) ->
  (0 < shape0 data)%nat ->
  (0 < max_epochs)%Z ->
  (exists s_end, train data max_epochs learning_rate s = (Ok tt, s_end)) /\
  forall k, (0 <= k < max_epochs)%Z ->
    exists s_k s_k',
      train data k learning_rate s = (Ok tt, s_k) /\
      train_epoch (np_insert_col 1 data) (shape0 data) learning_rate k s_k = (Ok tt, s_k') /\
      train data (k + 1) learning_rate s = (Ok tt, s_k') /\
      let V := ncols data in
      let H := Z.to_nat (num_hidden (self s)) in
      let N := shape0 data in
      wf (weights (self s_k')) /\
      shape0 (weights (self s_k')) = S V /\
      ncols (weights (self s_k')) = S H /\
      forall i j, (i <= V)%nat -> (j <= H)%nat ->
        entry (weights (self s_k')) i j =
        Spec.update V H N learning_rate
          (entry (weights (self s_k)))
          (Spec.augment (entry data))
          (rand_entry (np_random s_k) (S H)) i j.
Proof.
  intros He Hd Hc _ Hpos. split.
  - destruct (train_ok data learning_rate (Z.to_nat max_epochs) s He Hd Hc) as (s' & Hrun & _).
    rewrite Z2Nat.id in Hrun by lia. exists s'. exact Hrun.
  - intros k Hk.
    destruct (train_ok data learning_rate (Z.to_nat k) s He Hd Hc)
      as (sk & Hrun & Hek & HVk & HHk).
    rewrite Z2Nat.id in Hrun by lia.
    destruct (train_epoch_ok data learning_rate k sk) as (s' & Hstep & He' & HV' & HH' & HW');
      try assumption; try congruence.
    exists sk, s'. split; [exact Hrun|]. split; [exact Hstep|]. split.
    + unfold train in *. rewrite range_snoc by lia. rewrite for_each_app, Hrun.
      simpl. unfold bind. rewrite Hstep. reflexivity.
    + cbv zeta. pose proof He' as (_ & _ & Hw' & _ & _).
      destruct (wf_engine_shape _ He') as (H0' & H1' & _).
      pose proof Hek as (_ & _ & Hwk & _ & _).
      destruct (wf_engine_shape _ Hek) as (H0k & H1k & _).
      assert (HVn : Z.to_nat (num_visible (self s)) = ncols data) by lia.
      split; [exact Hw'|]. split; [rewrite H0', HV', HVk, HVn; reflexivity|].
      split; [rewrite H1', HH', HHk; reflexivity|].
      intros i j Hi Hj. rewrite HW', HHk.
      apply new_weights_entry; try assumption; lia.
Qed.

Lemma train_epoch_contrastive_divergence_witness :
  (exists s_end, train training_data 1000 0.1 demo_state = (Ok tt, s_end)) /\
  forall k, (0 <= k < 1000)%Z ->
    exists s_k s_k',
      train training_data k 0.1 demo_state = (Ok tt, s_k) /\
      train_epoch (np_insert_col 1 training_data) 6 0.1 k s_k = (Ok tt, s_k') /\
      train training_data (k + 1) 0.1 demo_state = (Ok tt, s_k') /\
      wf (weights (self s_k')) /\
      shape0 (weights (self s_k')) = 7%nat /\
      ncols (weights (self s_k')) = 3%nat /\
      forall i j, (i <= 6)%nat -> (j <= 2)%nat ->
        entry (weights (self s_k')) i j =
        Spec.update 6 2 6 0.1
          (entry (weights (self s_k)))
          (Spec.augment (entry training_data))
          (rand_entry (np_random s_k) 3) i j.
Proof.
  apply (train_epoch_contrastive_divergence training_data 1000 0.1 demo_state).
  - exact demo_engine_wf.
  - exact training_data_wf.
  - reflexivity.
  - unfold shape0, training_data; simpl; lia.
  - lia.
Defined.

(** C10.  With [max_epochs] zero or negative the loop of [train] has no
    iteration: [train] returns without error and leaves the weights, and all
    the rest of the state, as they were.  This holds for every data array,
    whatever its entries and its number of columns. *)
Theorem train_without_epochs
    (data : ndarray) (max_epochs : Z) (learning_rate : R) (s : state) :
  (max_epochs <= 0)%Z ->
  train data max_epochs learning_rate s = (Ok tt, s).
Proof.
  intros Hle. unfold train. rewrite range_nonpositive by lia. reflexivity.
Qed.

Lemma train_without_epochs_witness :
  train training_data 0 0.1 demo_state = (Ok tt, demo_state).
Proof.
  apply (train_without_epochs training_data 0 0.1 demo_state). lia.
Defined.

(** the first product of the first epoch raises when the data has not
    [num_visible] columns *)
Lemma train_epoch_mismatch (data : ndarray) (n : nat) (lr : R) (epoch : Z) (s : state) :
  wf_engine (self s) -> Z.of_nat (ncols data) <> num_visible (self s) ->
  train_epoch (np_insert_col 1 data) n lr epoch s = (Raise ValueError, s).
Proof.
  intros He Hc. destruct (wf_engine_shape _ He) as (H0 & _ & _).
  destruct He as (HV & _).
  unfold train_epoch, bind, get_weights, lift. cbv zeta.
  rewrite np_dot_mismatch; [reflexivity|].
  simpl. rewrite H0. lia.
Qed.

(** C3, as amended.  When the data has not [num_visible] columns and at least
    one epoch is asked for, [train] raises numpy's [ValueError]: the first
    matrix product of the first epoch raises it, after the bias column has
    been inserted and before anything is drawn, printed or stored, so the
    weights and all the rest of the state are as they were. *)
Theorem train_shape_mismatch
    (data : ndarray) (max_epochs : Z) (learning_rate : R) (s : state) :
  wf_engine (self s) -> Z.of_nat (ncols data) <> num_visible (self s) ->
  (1 <= max_epochs)%Z ->
  train data max_epochs learning_rate s = (Raise ValueError, s).
Proof.
  intros He Hc Hpos. unfold train. rewrite range_cons by lia. simpl. unfold bind.
  rewrite train_epoch_mismatch by assumption. reflexivity.
Qed.

Lemma train_shape_mismatch_witness :
  train two_columns 1000 0.1 demo_state = (Raise ValueError, demo_state).
Proof.
  apply (train_shape_mismatch two_columns 1000 0.1 demo_state).
  - exact demo_engine_wf.
  - simpl. lia.
  - lia.
Defined.

(** C3 as stated fails: an array of two columns, an engine of six visible
    units and no epoch: [train] returns without any error. *)
Lemma train_shape_mismatch_unnoticed :
  wf_engine (self demo_state) /\
  Z.of_nat (ncols two_columns) <> num_visible (self demo_state) /\
  train two_columns 0 0.1 demo_state = (Ok tt, demo_state).
Proof.
  split; [exact demo_engine_wf|]. split; [simpl; lia|]. reflexivity.
Qed.

(** ** [__init__] *)

Section InitFacts.

Variable mt19937 : Z -> nat -> R.

Lemma init_run (V H : Z) (s : state) :
  (0 <= V)%Z -> (0 <= H)%Z -> (H + V <> 0)%Z ->
  __init__ mt19937 V H s =
  (Ok tt,
   {| self := {| num_hidden := H; num_visible := V; debug_print := true;
                 weights := initial_weights mt19937 V H |};
      np_random := np_random s;
      stdout := stdout s |}).
Proof.
  intros HV HH Hsum.
  unfold __init__, bind, set_num_hidden, set_num_visible, set_debug_print, set_weights,
    set_self, get_weights, lift, float_div, uniform.
  cbn [self num_hidden num_visible debug_print weights np_random stdout].
  apply Z.eqb_neq in Hsum. rewrite Hsum.
  replace ((V <? 0)%Z || (H <? 0)%Z) with false
    by (symmetry; apply orb_false_iff; split; apply Z.ltb_ge; lia).
  reflexivity.
Qed.

Lemma init_zero_division (V H : Z) (s : state) :
  (H + V = 0)%Z ->
  exists s', __init__ mt19937 V H s = (Raise ZeroDivisionError, s').
Proof.
  intros Hsum.
  unfold __init__, bind, set_num_hidden, set_num_visible, set_debug_print, set_self,
    lift, float_div.
  cbn [self num_hidden num_visible debug_print weights np_random stdout].
  apply Z.eqb_eq in Hsum. rewrite Hsum. eexists. reflexivity.
Qed.

Lemma init_negative (V H : Z) (s : state) :
  (V < 0 \/ H < 0)%Z ->
  exists e s', __init__ mt19937 V H s = (Raise e, s').
Proof.
  intros Hneg. destruct (Z.eq_dec (H + V) 0) as [Hsum|Hsum].
  - destruct (init_zero_division V H s Hsum) as (s' & Hs'). eauto.
  - unfold __init__, bind, set_num_hidden, set_num_visible, set_debug_print, set_self,
      lift, float_div, uniform.
    cbn [self num_hidden num_visible debug_print weights np_random stdout].
    apply Z.eqb_neq in Hsum. rewrite Hsum.
    replace ((V <? 0)%Z || (H <? 0)%Z) with true
      by (symmetry; apply orb_true_iff; destruct Hneg; [left | right]; apply Z.ltb_lt; lia).
    eexists. eexists. reflexivity.
Qed.

Lemma initial_weights_shape (V H : Z) :
  wf (initial_weights mt19937 V H) /\
  shape0 (initial_weights mt19937 V H) = S (Z.to_nat V) /\
  ncols (initial_weights mt19937 V H) = S (Z.to_nat H).
Proof.
  unfold initial_weights. cbv zeta. repeat split.
  - apply wf_insert_col, wf_insert_row, wf_nd_map.
    unfold wf; simpl. apply Forall_draw_rows.
  - rewrite shape0_insert_col. unfold shape0; simpl.
    rewrite length_map, length_draw_rows. reflexivity.
Qed.

Lemma initial_weights_col0 (V H : Z) (i : nat) :
  (i <= Z.to_nat V)%nat -> entry (initial_weights mt19937 V H) i 0 = 0.
Proof.
  intros Hi. unfold initial_weights. cbv zeta. rewrite entry_insert_col; [reflexivity|].
  unfold shape0; simpl. rewrite length_map, length_draw_rows. lia.
Qed.

Lemma initial_weights_row0 (V H : Z) (j : nat) :
  entry (initial_weights mt19937 V H) 0 j = 0.
Proof.
  unfold initial_weights. cbv zeta.
  rewrite entry_insert_col by (unfold shape0; simpl; lia).
  destruct j as [|j]; [reflexivity|].
  unfold entry; simpl.
  destruct (Nat.lt_ge_cases j (Z.to_nat H)) as [Hj|Hj].
  - apply nth_repeat_lt. exact Hj.
  - apply nth_overflow. rewrite repeat_length. exact Hj.
Qed.

Lemma initial_weights_interior (V H : Z) (i j : nat) :
  (i < Z.to_nat V)%nat -> (j < Z.to_nat H)%nat ->
  entry (initial_weights mt19937 V H) (S i) (S j) =
  -0.1 * sqrt (6 / IZR (H + V)) +
  (0.1 * sqrt (6 / IZR (H + V)) - -0.1 * sqrt (6 / IZR (H + V))) *
  mt19937 1234%Z (i * Z.to_nat H + j)%nat.
Proof.
  intros Hi Hj. unfold initial_weights. cbv zeta.
  rewrite entry_insert_col
    by (unfold shape0; simpl; rewrite length_map, length_draw_rows; lia).
  unfold entry; simpl.
  rewrite (nth_map_lt _ _ []) by (rewrite length_draw_rows; exact Hi).
  rewrite (nth_map_lt _ _ 0)
    by (rewrite (Forall_nth_len _ (Z.to_nat H));
        [exact Hj | apply Forall_draw_rows | rewrite length_draw_rows; exact Hi]).
  rewrite nth_draw_rows by assumption. reflexivity.
Qed.

End InitFacts.

(** C4.  For positive [num_visible] and [num_hidden], and a generator
    [RandomState(1234)] that yields doubles of [[0, 1)] as numpy documents,
    [__init__] returns without error and stores a well-formed weight array of
    [num_visible + 1] rows and [num_hidden + 1] columns, whose row 0 and
    column 0 are zero and whose other entries lie between
    [-0.1 * sqrt(6 / (num_hidden + num_visible))] and
    [0.1 * sqrt(6 / (num_hidden + num_visible))]. *)
Theorem init_weights_shape_bias_bounds
    (mt19937 : Z -> nat -> R) (V H : Z) (s : state) :
  unit_interval (mt19937 1234%Z) -> (0 < V)%Z -> (0 < H)%Z ->
  exists s',
    __init__ mt19937 V H s = (Ok tt, s') /\
    num_visible (self s') = V /\ num_hidden (self s') = H /\
    let W := weights (self s') in
    let bound := 0.1 * sqrt (6 / IZR (H + V)) in
    wf W /\
    Z.of_nat (shape0 W) = (V + 1)%Z /\
    Z.of_nat (ncols W) = (H + 1)%Z /\
    (forall j, (j < ncols W)%nat -> entry W 0 j = 0) /\
    (forall i, (i < shape0 W)%nat -> entry W i 0 = 0) /\
    (forall i j, (1 <= i < shape0 W)%nat -> (1 <= j < ncols W)%nat ->
       - bound <= entry W i j <= bound).
Proof.
  intros Hmt HV HH. eexists. split; [apply init_run; lia|].
  cbn [self num_visible num_hidden weights]. split; [reflexivity|]. split; [reflexivity|].
  cbv zeta. destruct (initial_weights_shape mt19937 V H) as (Hw & H0 & H1).
  split; [exact Hw|]. split; [rewrite H0; lia|]. split; [rewrite H1; lia|].
  split; [intros j _; apply initial_weights_row0|].
  split; [intros i Hi; apply initial_weights_col0; rewrite H0 in Hi; lia|].
  intros [|i] [|j] Hi Hj; try lia. rewrite H0 in Hi. rewrite H1 in Hj.
  rewrite initial_weights_interior by lia.
  pose proof (sqrt_pos (6 / IZR (H + V))) as Hs.
  destruct (Hmt (i * Z.to_nat H + j)%nat) as (Hu0 & Hu1).
  split; nra.
Qed.

(** C8.  The call [RBM(num_visible, num_hidden)] has one outcome for given
    dimensions, whatever the state of the process it is made in: the same
    object (dimensions, flag and weights) or the same exception. *)
Theorem construct_deterministic
    (mt19937 : Z -> nat -> R) (V H : Z) (s1 s2 : state) :
  fst (construct mt19937 V H s1) = fst (construct mt19937 V H s2).
Proof.
  unfold construct, __init__, bind, set_num_hidden, set_num_visible, set_debug_print,
    set_weights, set_self, get_weights, lift, float_div, uniform.
  cbn [self num_hidden num_visible debug_print weights np_random stdout].
  destruct (H + V =? 0)%Z; [reflexivity|].
  destruct ((V <? 0)%Z || (H <? 0)%Z); reflexivity.
Qed.

(** ** Operations that leave the object alone *)

Lemma preserves_ret {A : Type} (a : A) : preserves_self (ret a).
Proof. intros s. reflexivity. Qed.

Lemma preserves_lift {A : Type} (r : result A) : preserves_self (lift r).
Proof. intros s. reflexivity. Qed.

Lemma preserves_bind {A B : Type} (m : M A) (k : A -> M B) :
  preserves_self m -> (forall a, preserves_self (k a)) -> preserves_self (bind m k).
Proof.
  intros Hm Hk s. unfold bind. specialize (Hm s).
  destruct (m s) as [[a|e] s']; simpl in *.
  - rewrite Hk. exact Hm.
  - exact Hm.
Qed.

Lemma preserves_get_weights : preserves_self get_weights.
Proof. intros s. reflexivity. Qed.

Lemma preserves_get_num_hidden : preserves_self get_num_hidden.
Proof. intros s. reflexivity. Qed.

Lemma preserves_get_num_visible : preserves_self get_num_visible.
Proof. intros s. reflexivity. Qed.

Lemma preserves_np_random_rand (d0 d1 : Z) : preserves_self (np_random_rand d0 d1).
Proof.
  intros s. unfold np_random_rand. destruct ((d0 <? 0)%Z || (d1 <? 0)%Z); reflexivity.
Qed.

Lemma preserves_np_random_rand1 (d : Z) : preserves_self (np_random_rand1 d).
Proof.
  intros s. unfold np_random_rand1. destruct (d <? 0)%Z; reflexivity.
Qed.

Lemma preserves_for_each {A : Type} (xs : list Z) (body : Z -> A -> M A) (a : A) :
  (forall x a', preserves_self (body x a')) -> preserves_self (for_each xs body a).
Proof.
  intros Hbody. revert a. induction xs as [|x xs IH]; intros a; simpl.
  - apply preserves_ret.
  - apply preserves_bind; [apply Hbody | exact IH].
Qed.

Create HintDb frame.
#[local] Hint Resolve preserves_ret preserves_lift preserves_get_weights
  preserves_get_num_hidden preserves_get_num_visible preserves_np_random_rand
  preserves_np_random_rand1 : frame.

Ltac frame_step :=
  cbv zeta;
  first [ solve [auto with frame]
        | apply preserves_bind; [ | intros ? ] ].

Lemma preserves_daydream_step (i : Z) (samples : ndarray) :
  preserves_self (daydream_step i samples).
Proof. unfold daydream_step. repeat frame_step. Qed.

Lemma preserves_run_visible (data : ndarray) : preserves_self (run_visible data).
Proof. unfold run_visible. repeat frame_step. Qed.

Lemma preserves_run_hidden (data : ndarray) : preserves_self (run_hidden data).
Proof. unfold run_hidden. repeat frame_step. Qed.

Lemma preserves_daydream (num_samples : Z) : preserves_self (daydream num_samples).
Proof.
  unfold daydream. repeat frame_step.
  apply preserves_for_each. intros x a'. apply preserves_daydream_step.
Qed.

(** ** [run_visible] and [run_hidden] *)

Lemma np_ones_eq (n m : nat) (d0 d1 : Z) :
  d0 = Z.of_nat n -> d1 = Z.of_nat m ->
  np_ones d0 d1 = Ok (NdArray m (repeat (repeat 1 m) n)).
Proof.
  intros -> ->. unfold np_ones.
  replace ((Z.of_nat n <? 0)%Z || (Z.of_nat m <? 0)%Z) with false
    by (symmetry; apply orb_false_iff; split; apply Z.ltb_ge; lia).
  rewrite !Nat2Z.id. reflexivity.
Qed.

Lemma assign_all_eq (target src : ndarray) :
  shape0 target = shape0 src -> ncols target = ncols src ->
  assign_all target src = Ok src.
Proof.
  intros Hs Hc. unfold assign_all, same_shape. rewrite Hs, Hc, !Nat.eqb_refl. reflexivity.
Qed.

Lemma wf_drop_col0 (m : ndarray) : wf m -> wf (drop_col0 m).
Proof.
  unfold wf, drop_col0; simpl. intros Hm. apply Forall_map.
  eapply Forall_impl; [|exact Hm]. simpl. intros [|x r] <-; reflexivity.
Qed.

Lemma shape0_drop_col0 (m : ndarray) : shape0 (drop_col0 m) = shape0 m.
Proof. unfold shape0, drop_col0; simpl. apply length_map. Qed.

Lemma binary_tl (l : list R) : binary l -> binary (tl l).
Proof. intros Hl. destruct Hl; [constructor | assumption]. Qed.

Lemma zip_rows_binary (a b : list (list R)) : Forall binary (zip_rows greater a b).
Proof.
  revert b. induction a as [|r a IH]; intros [|s b]; simpl; constructor.
  - apply zip_with_binary.
  - apply IH.
Qed.

(** the value and the state [run_visible] returns *)
Lemma run_visible_run (data : ndarray) (s : state) :
  wf_engine (self s) -> wf data -> Z.of_nat (ncols data) = num_visible (self s) ->
  let N := shape0 data in
  let H := Z.to_nat (num_hidden (self s)) in
  run_visible data s =
  (Ok (drop_col0
         (zip_nd greater
            (nd_map _logistic (dot (np_insert_col 1 data) (weights (self s))))
            (rand_array (np_random s) N (S H)))),
   {| self := self s; np_random := advance (np_random s) (N * S H); stdout := stdout s |}).
Proof.
  intros He Hd Hc N H.
  destruct (wf_engine_shape _ He) as (HW0 & HW1 & HHn). destruct He as (HV & HH & HWw & _).
  unfold run_visible, bind, lift, get_num_hidden, get_weights, ret.
  rewrite (np_ones_eq N (S H)) by (try reflexivity; lia).
  rewrite np_dot_eq by (simpl; rewrite HW0; lia).
  rewrite (np_random_rand_eq N (S H)) by (try reflexivity; lia).
  rewrite nd_zip_eq;
    [| rewrite shape0_nd_map, shape0_dot, shape0_insert_col, shape0_rand_array; reflexivity
     | simpl; exact HW1].
  rewrite assign_all_eq; [reflexivity | | simpl; symmetry; exact HW1].
  rewrite shape0_zip_nd
    by (rewrite shape0_nd_map, shape0_dot, shape0_insert_col, shape0_rand_array; reflexivity).
  rewrite shape0_nd_map, shape0_dot, shape0_insert_col.
  unfold shape0; simpl. apply repeat_length.
Qed.

(** the value and the state [run_hidden] returns *)
Lemma run_hidden_run (data : ndarray) (s : state) :
  wf_engine (self s) -> wf data -> Z.of_nat (ncols data) = num_hidden (self s) ->
  let N := shape0 data in
  let V := Z.to_nat (num_visible (self s)) in
  run_hidden data s =
  (Ok (drop_col0
         (zip_nd greater
            (nd_map _logistic (dot (np_insert_col 1 data) (T (weights (self s)))))
            (rand_array (np_random s) N (S V)))),
   {| self := self s; np_random := advance (np_random s) (N * S V); stdout := stdout s |}).
Proof.
  intros He Hd Hc N V.
  destruct (wf_engine_shape _ He) as (HW0 & HW1 & HHn). destruct He as (HV & HH & HWw & _).
  unfold run_hidden, bind, lift, get_num_visible, get_weights, ret.
  rewrite (np_ones_eq N (S V)) by (try reflexivity; lia).
  rewrite np_dot_eq by (rewrite shape0_T; simpl; rewrite HW1; lia).
  rewrite (np_random_rand_eq N (S V)) by (try reflexivity; lia).
  rewrite nd_zip_eq;
    [| rewrite shape0_nd_map, shape0_dot, shape0_insert_col, shape0_rand_array; reflexivity
     | simpl; exact HW0].
  rewrite assign_all_eq; [reflexivity | | simpl; symmetry; exact HW0].
  rewrite shape0_zip_nd
    by (rewrite shape0_nd_map, shape0_dot, shape0_insert_col, shape0_rand_array; reflexivity).
  rewrite shape0_nd_map, shape0_dot, shape0_insert_col.
  unfold shape0; simpl. apply repeat_length.
Qed.

(** the shape of what both return: a well-formed 0/1 array with the bias
    column gone *)
Lemma sampled_states_shape (P : ndarray) (g : RandomState) (n c : nat) :
  wf P -> shape0 P = n -> ncols P = S c ->
  let m := drop_col0 (zip_nd greater P (rand_array g n (S c))) in
  wf m /\ shape0 m = n /\ ncols m = c /\ Forall binary (rows m).
Proof.
  intros HP HP0 HP1 m. unfold m. repeat split.
  - apply wf_drop_col0, wf_zip_nd; [exact HP | apply wf_rand_array | exact HP1].
  - rewrite shape0_drop_col0, shape0_zip_nd; [exact HP0|].
    rewrite shape0_rand_array. exact HP0.
  - simpl. rewrite HP1. reflexivity.
  - simpl. apply Forall_map. eapply Forall_impl; [|apply zip_rows_binary].
    intros r Hr. apply binary_tl. exact Hr.
Qed.

(** ** [daydream] *)

Lemma index_in_range (n : nat) (i : Z) :
  (0 <= i < Z.of_nat n)%Z -> index n i = Some (Z.to_nat i).
Proof.
  intros Hi. unfold index.
  replace (0 <=? i)%Z with true by (symmetry; apply Z.leb_le; lia).
  replace (i <? Z.of_nat n)%Z with true by (symmetry; apply Z.ltb_lt; lia).
  reflexivity.
Qed.

Lemma np_dot1_eq (v : list R) (b : ndarray) :
  length v = shape0 b -> np_dot1 v b = Ok (dot_row b v).
Proof. intros Hv. unfold np_dot1. rewrite Hv, Nat.eqb_refl. reflexivity. Qed.

Lemma vec_zip_eq (f : R -> R -> R) (u v : list R) :
  length u = length v -> vec_zip f u v = Ok (zip_with f u v).
Proof. intros Huv. unfold vec_zip. rewrite Huv, Nat.eqb_refl. reflexivity. Qed.

Lemma vec_set0_eq (x : R) (v : list R) (n : nat) :
  length v = S n -> vec_set0 x v = Ok (x :: tl v).
Proof. destruct v; [discriminate | reflexivity]. Qed.

Lemma length_draws (g : RandomState) (n : nat) : length (draws g n) = n.
Proof. unfold draws. rewrite length_map, length_seq. reflexivity. Qed.

Lemma np_random_rand1_eq (n : nat) (d : Z) (s : state) :
  d = Z.of_nat n ->
  np_random_rand1 d s =
  (Ok (draws (np_random s) n),
   {| self := self s; np_random := advance (np_random s) n; stdout := stdout s |}).
Proof.
  intros ->. unfold np_random_rand1.
  replace (Z.of_nat n <? 0)%Z with false by (symmetry; apply Z.ltb_ge; lia).
  rewrite Nat2Z.id. reflexivity.
Qed.

Lemma length_hidden_states (W : ndarray) (g : RandomState) (h : nat) (visible : list R) :
  ncols W = S h -> length (Gibbs.hidden_states W g (S h) visible) = S h.
Proof.
  intros HW1. unfold Gibbs.hidden_states. simpl.
  assert (Hl : length (zip_with greater (map _logistic (dot_row W visible))
                         (draws g (S h))) = S h).
  { rewrite length_zip_with; rewrite length_map, length_dot_row; [exact HW1|].
    rewrite length_draws. exact HW1. }
  destruct (zip_with greater _ _); simpl in *; lia.
Qed.

Lemma length_visible_states (W : ndarray) (g : RandomState) (h v : nat) (visible : list R) :
  shape0 W = S v -> length (Gibbs.visible_states W g (S h) (S v) visible) = S v.
Proof.
  intros HW0. unfold Gibbs.visible_states.
  rewrite length_zip_with; rewrite length_map, length_dot_row, ?length_draws;
    unfold T; cbn [ncols]; exact HW0.
Qed.

Lemma binary_visible_states (W : ndarray) (g : RandomState) (h v : nat) (visible : list R) :
  binary (Gibbs.visible_states W g h v visible).
Proof. apply zip_with_binary. Qed.

(** the array and the state an iteration of the loop leaves *)
Lemma daydream_step_run (i : Z) (samples : ndarray) (s : state) :
  wf_engine (self s) -> wf samples ->
  Z.of_nat (ncols samples) = (num_visible (self s) + 1)%Z ->
  (1 <= i < Z.of_nat (shape0 samples))%Z ->
  let V1 := S (Z.to_nat (num_visible (self s))) in
  let H1 := S (Z.to_nat (num_hidden (self s))) in
  let visible := nth (Z.to_nat (i - 1)) (rows samples) [] in
  daydream_step i samples s =
  (Ok (NdArray (ncols samples)
         (replace_nth (Z.to_nat i)
            (Gibbs.visible_states (weights (self s)) (np_random s) H1 V1 visible)
            (rows samples))),
   {| self := self s; np_random := advance (advance (np_random s) H1) V1;
      stdout := stdout s |}).
Proof.
  intros He Hs Hc Hi V1 H1 visible.
  destruct (wf_engine_shape _ He) as (HW0 & HW1 & HHn). destruct He as (HV & HH & HWw & _).
  assert (Hvis : length visible = V1).
  { unfold visible. rewrite wf_nth_len; [unfold V1; lia | exact Hs | lia]. }
  unfold daydream_step, bind, lift, get_weights, get_num_hidden, get_num_visible.
  unfold get_row. rewrite index_in_range by lia. fold visible.
  rewrite np_dot1_eq by (rewrite HW0; exact Hvis).
  rewrite (np_random_rand1_eq H1) by (unfold H1; lia).
  cbn [self np_random stdout].
  rewrite vec_zip_eq
    by (rewrite length_map, length_dot_row, length_draws; exact HW1).
  rewrite (vec_set0_eq _ _ (Z.to_nat (num_hidden (self s))))
    by (rewrite length_zip_with; rewrite length_map, length_dot_row, ?length_draws;
        exact HW1).
  fold (Gibbs.hidden_states (weights (self s)) (np_random s) H1 visible).
  rewrite np_dot1_eq
    by (rewrite shape0_T; unfold H1; rewrite length_hidden_states; congruence).
  rewrite (np_random_rand1_eq V1) by (unfold V1; lia).
  cbn [self np_random stdout].
  rewrite vec_zip_eq
    by (rewrite length_map, length_dot_row, length_draws; unfold T; cbn [ncols]; exact HW0).
  fold (Gibbs.visible_states (weights (self s)) (np_random s) H1 V1 visible).
  unfold set_row. rewrite index_in_range by lia.
  replace (length (Gibbs.visible_states (weights (self s)) (np_random s) H1 V1 visible)
           =? ncols samples)%nat with true; [reflexivity|].
  symmetry. apply Nat.eqb_eq. unfold H1, V1. rewrite length_visible_states by exact HW0.
  lia.
Qed.

(** the loop of [daydream] from index [i] on: it fills the rows from [i] on
    with 0/1 vectors and leaves the rows before [i] *)
Lemma daydream_loop (m : nat) :
  forall (i : Z) (samples : ndarray) (s : state),
    wf_engine (self s) -> wf samples ->
    Z.of_nat (ncols samples) = (num_visible (self s) + 1)%Z ->
    (1 <= i)%Z -> (i + Z.of_nat m = Z.of_nat (shape0 samples))%Z ->
    exists samples' s',
      for_each (range i (Z.of_nat (shape0 samples))) daydream_step samples s =
        (Ok samples', s') /\
      self s' = self s /\
      wf samples' /\ ncols samples' = ncols samples /\ shape0 samples' = shape0 samples /\
      (forall j, (j < Z.to_nat i)%nat ->
         nth j (rows samples') [] = nth j (rows samples) []) /\
      (forall j, (Z.to_nat i <= j < shape0 samples)%nat ->
         binary (nth j (rows samples') [])).
Proof.
  induction m as [|m IH]; intros i samples s He Hs Hc Hi Hm.
  - exists samples, s. rewrite range_nonpositive by lia. simpl. unfold ret.
    repeat split; try assumption; try reflexivity. intros j Hj. exfalso. lia.
  - rewrite range_cons by lia. simpl. unfold bind.
    rewrite daydream_step_run by (try assumption; lia).
    set (vs := Gibbs.visible_states _ _ _ _ _).
    set (samples1 := NdArray (ncols samples) (replace_nth (Z.to_nat i) vs (rows samples))).
    set (s1 := {| self := self s; np_random := _; stdout := stdout s |}).
    assert (Hvs : length vs = ncols samples).
    { unfold vs. destruct (wf_engine_shape _ He) as (HW0 & _ & _).
      pose proof He as (HV & _).
      rewrite length_visible_states by exact HW0. lia. }
    assert (H0 : shape0 samples1 = shape0 samples)
      by (unfold shape0, samples1; simpl; apply length_replace_nth).
    destruct (IH (i + 1)%Z samples1 s1) as (samples' & s' & Hrun & Hself & Hw & Hn & Hs0 & Hlo & Hhi).
    + exact He.
    + unfold wf, samples1; simpl. apply Forall_replace_nth; [exact Hs | exact Hvs].
    + exact Hc.
    + lia.
    + rewrite H0. lia.
    + rewrite H0 in Hrun. exists samples', s'.
      split; [exact Hrun|]. split; [exact Hself|]. split; [exact Hw|].
      split; [exact Hn|]. split; [congruence|]. split.
      * intros j Hj. rewrite Hlo by lia. unfold samples1; simpl.
        rewrite nth_replace_nth by (fold (shape0 samples); lia).
        replace (j =? Z.to_nat i)%nat with false by (symmetry; apply Nat.eqb_neq; lia).
        reflexivity.
      * intros j Hj. destruct (Nat.eq_dec j (Z.to_nat i)) as [->|Hne].
        -- rewrite Hlo by lia. unfold samples1; simpl.
           rewrite nth_replace_nth by (fold (shape0 samples); lia).
           rewrite Nat.eqb_refl. apply binary_visible_states.
        -- apply Hhi. rewrite H0. lia.
Qed.

(** what [daydream] returns for a positive number of samples *)
Lemma daydream_run (num_samples : Z) (s : state) :
  wf_engine (self s) -> (1 <= num_samples)%Z ->
  exists m s',
    daydream num_samples s = (Ok m, s') /\
    self s' = self s /\
    wf m /\
    shape0 m = Z.to_nat num_samples /\
    ncols m = Z.to_nat (num_visible (self s)) /\
    nth 0 (rows m) [] = draws (np_random s) (Z.to_nat (num_visible (self s))) /\
    (forall i, (1 <= i < Z.to_nat num_samples)%nat -> binary (nth i (rows m) [])).
Proof.
  intros He Hn. pose proof He as (HV & HH & _).
  set (V := Z.to_nat (num_visible (self s))).
  unfold daydream, bind, lift, get_num_visible.
  rewrite (np_ones_eq (Z.to_nat num_samples) (S V)) by (unfold V; lia).
  rewrite (np_random_rand1_eq V) by (unfold V; lia).
  unfold set_row0_from1. cbn [rows ncols].
  destruct (Z.to_nat num_samples) as [|n'] eqn:Hn'; [lia|].
  cbn [repeat firstn]. rewrite length_draws. cbn [pred]. rewrite Nat.eqb_refl.
  set (samples0 := NdArray (S V) _).
  set (s0 := {| self := self s; np_random := _; stdout := stdout s |}).
  assert (H0 : shape0 samples0 = S n')
    by (unfold shape0, samples0; simpl; rewrite repeat_length; reflexivity).
  destruct (daydream_loop n' 1%Z samples0 s0) as (samples' & s' & Hrun & Hself & Hw & Hc & Hs0 & Hlo & Hhi).
  - exact He.
  - unfold wf, samples0; simpl. constructor.
    + cbn [length]. rewrite length_draws. reflexivity.
    + apply Forall_forall. intros r Hr. apply repeat_spec in Hr. subst r.
      simpl. rewrite repeat_length. reflexivity.
  - unfold samples0, s0; simpl ncols; cbn [self]. unfold V. lia.
  - lia.
  - rewrite H0. lia.
  - rewrite H0 in Hrun. replace (Z.of_nat (S n')) with num_samples in Hrun by lia.
    rewrite Hrun. unfold ret. exists (drop_col0 samples'), s'.
    split; [reflexivity|]. split; [exact Hself|]. split; [apply wf_drop_col0, Hw|].
    split; [rewrite shape0_drop_col0; congruence|].
    split; [simpl; rewrite Hc; reflexivity|]. split.
    + unfold drop_col0; simpl. rewrite (nth_map_gen (@tl R) _ []) by reflexivity.
      rewrite Hlo by lia. reflexivity.
    + intros i Hi. unfold drop_col0; simpl.
      rewrite (nth_map_gen (@tl R) _ []) by reflexivity.
      apply binary_tl, Hhi. rewrite H0. lia.
Qed.

(** ** The claims on inference and sampling *)

(** C5.  On an engine that satisfies the class invariant, [run_visible] on a
    well-formed array of N rows and [num_visible] columns returns a
    well-formed array of N rows and [num_hidden] columns, [run_hidden] on N
    rows and [num_hidden] columns returns N rows and [num_visible] columns,
    and [daydream(k)] for [k >= 1] returns k rows and [num_visible] columns.
    None of them raises.  (N = 0 is not excluded.) *)
Theorem inference_and_sampling_shapes (s : state) :
  wf_engine (self s) ->
  (forall data, wf data -> Z.of_nat (ncols data) = num_visible (self s) ->
     exists m s', run_visible data s = (Ok m, s') /\
       wf m /\ shape0 m = shape0 data /\ Z.of_nat (ncols m) = num_hidden (self s)) /\
  (forall data, wf data -> Z.of_nat (ncols data) = num_hidden (self s) ->
     exists m s', run_hidden data s = (Ok m, s') /\
       wf m /\ shape0 m = shape0 data /\ Z.of_nat (ncols m) = num_visible (self s)) /\
  (forall k, (1 <= k)%Z ->
     exists m s', daydream k s = (Ok m, s') /\
       wf m /\ Z.of_nat (shape0 m) = k /\ Z.of_nat (ncols m) = num_visible (self s)).
Proof.
  intros He. destruct (wf_engine_shape _ He) as (HW0 & HW1 & _).
  pose proof He as (HV & HH & _). repeat split.
  - intros data Hd Hc. rewrite run_visible_run by assumption.
    eexists. eexists. split; [reflexivity|].
    destruct (sampled_states_shape
                (nd_map _logistic (dot (np_insert_col 1 data) (weights (self s))))
                (np_random s) (shape0 data) (Z.to_nat (num_hidden (self s))))
      as (Hw & H0 & H1 & _).
    + apply wf_nd_map, wf_dot.
    + rewrite shape0_nd_map, shape0_dot. apply shape0_insert_col.
    + simpl. exact HW1.
    + split; [exact Hw|]. split; [exact H0|]. rewrite H1. lia.
  - intros data Hd Hc. rewrite run_hidden_run by assumption.
    eexists. eexists. split; [reflexivity|].
    destruct (sampled_states_shape
                (nd_map _logistic (dot (np_insert_col 1 data) (T (weights (self s)))))
                (np_random s) (shape0 data) (Z.to_nat (num_visible (self s))))
      as (Hw & H0 & H1 & _).
    + apply wf_nd_map, wf_dot.
    + rewrite shape0_nd_map, shape0_dot. apply shape0_insert_col.
    + simpl. exact HW0.
    + split; [exact Hw|]. split; [exact H0|]. rewrite H1. lia.
  - intros k Hk. destruct (daydream_run k s He Hk) as (m & s' & Hrun & _ & Hw & H0 & H1 & _).
    exists m, s'. split; [exact Hrun|]. split; [exact Hw|]. split; lia.
Qed.

Lemma inference_and_sampling_shapes_witness :
  (forall data, wf data -> Z.of_nat (ncols data) = 6%Z ->
     exists m s', run_visible data demo_state = (Ok m, s') /\
       wf m /\ shape0 m = shape0 data /\ Z.of_nat (ncols m) = 2%Z) /\
  (forall data, wf data -> Z.of_nat (ncols data) = 2%Z ->
     exists m s', run_hidden data demo_state = (Ok m, s') /\
       wf m /\ shape0 m = shape0 data /\ Z.of_nat (ncols m) = 6%Z) /\
  (forall k, (1 <= k)%Z ->
     exists m s', daydream k demo_state = (Ok m, s') /\
       wf m /\ Z.of_nat (shape0 m) = k /\ Z.of_nat (ncols m) = 6%Z).
Proof.
  apply (inference_and_sampling_shapes demo_state). exact demo_engine_wf.
Defined.

(** C6.  For [num_samples >= 1], and so for [num_samples >= 2], on an engine
    that satisfies the class invariant, [daydream] returns a well-formed array
    of [num_samples] rows and [num_visible] columns, whose row 0 is the
    [num_visible] doubles the global generator yields first, as they are, and
    whose rows 1 to [num_samples - 1] hold nothing but 0 and 1. *)
Theorem daydream_rows (num_samples : Z) (s : state) :
  wf_engine (self s) -> (1 <= num_samples)%Z ->
  exists m s',
    daydream num_samples s = (Ok m, s') /\
    wf m /\
    shape0 m = Z.to_nat num_samples /\
    ncols m = Z.to_nat (num_visible (self s)) /\
    nth 0 (rows m) [] = draws (np_random s) (Z.to_nat (num_visible (self s))) /\
    forall i, (1 <= i < Z.to_nat num_samples)%nat -> binary (nth i (rows m) []).
Proof.
  intros He Hn.
  destruct (daydream_run num_samples s He Hn)
    as (m & s' & Hrun & _ & Hw & Hs0 & Hc & H0 & Hb).
  exists m, s'. auto 10.
Qed.

(** at [demo_state] row 0 of [daydream(5)] is not made of 0 and 1 *)
Lemma daydream_rows_witness :
  exists m s',
    daydream 5 demo_state = (Ok m, s') /\
    wf m /\ shape0 m = 5%nat /\ ncols m = 6%nat /\
    nth 0 (rows m) [] = [0.75; 0.75; 0.75; 0.75; 0.75; 0.75] /\
    ~ binary (nth 0 (rows m) []) /\
    forall i, (1 <= i < 5)%nat -> binary (nth i (rows m) []).
Proof.
  destruct (daydream_rows 5 demo_state demo_engine_wf)
    as (m & s' & Hrun & Hw & Hs0 & Hc & H0 & Hb); [lia|].
  exists m, s'. split; [exact Hrun|]. split; [exact Hw|]. split; [exact Hs0|].
  split; [exact Hc|]. split; [exact H0|]. split; [|exact Hb].
  rewrite H0. intros Hbin. inversion Hbin as [|x l [Hx|Hx] _]; subst; lra.
Defined.

(** ** Dimensions that are not positive *)

Lemma daydream_nonpositive (n : Z) (s : state) :
  (n <= 0)%Z -> exists e s', daydream n s = (Raise e, s').
Proof.
  intros Hn. unfold daydream, bind, lift, get_num_visible, np_ones.
  destruct (n <? 0)%Z eqn:Hneg; simpl.
  - eexists. eexists. reflexivity.
  - assert (n = 0%Z) by (apply Z.ltb_ge in Hneg; lia). subst n.
    destruct (num_visible (self s) + 1 <? 0)%Z; [eexists; eexists; reflexivity|].
    unfold np_random_rand1.
    destruct (num_visible (self s) <? 0)%Z; eexists; eexists; reflexivity.
Qed.

(** C7, as amended.  No operation checks its dimensions, and what a
    dimension that is not positive does differs from one operation to the
    other.  [__init__] raises when [num_visible] or [num_hidden] is negative or
    both are zero, and succeeds when one is zero and the other positive;
    [daydream] raises for every [num_samples <= 0]; [train] with
    [max_epochs <= 0] raises nothing: it returns at once and leaves the state
    as it was. *)
Theorem nonpositive_dimensions (mt19937 : Z -> nat -> R) (s : state) :
  (forall V H, (V < 0 \/ H < 0 \/ (V = 0 /\ H = 0))%Z ->
     exists e s', __init__ mt19937 V H s = (Raise e, s')) /\
  (forall V H, (0 <= V)%Z -> (0 <= H)%Z -> (0 < V + H)%Z ->
     exists s', __init__ mt19937 V H s = (Ok tt, s')) /\
  (forall num_samples, (num_samples <= 0)%Z ->
     exists e s', daydream num_samples s = (Raise e, s')) /\
  (forall data max_epochs learning_rate, (max_epochs <= 0)%Z ->
     train data max_epochs learning_rate s = (Ok tt, s)).
Proof.
  repeat split.
  - intros V H [HV|[HH|[HV HH]]].
    + apply init_negative. left. exact HV.
    + apply init_negative. right. exact HH.
    + destruct (init_zero_division mt19937 V H s) as (s' & Hs'); [lia|]. eauto.
  - intros V H HV HH Hsum. eexists. apply init_run; lia.
  - intros n Hn. apply daydream_nonpositive. exact Hn.
  - intros data max_epochs lr Hle. unfold train.
    rewrite range_nonpositive by lia. reflexivity.
Qed.

(** C7 as stated fails: [train] with a negative [max_epochs] returns without
    error, and so does [RBM(0, 2)]. *)
Lemma nonpositive_dimensions_accepted :
  train training_data (-5) 0.1 demo_state = (Ok tt, demo_state) /\
  exists s', __init__ sample_doubles 0 2 demo_state = (Ok tt, s').
Proof.
  split; [reflexivity|]. eexists. apply init_run; lia.
Qed.

(** ** The bias entry of the samples of [daydream] *)

Lemma logistic_0 : _logistic 0 = 1 / 2.
Proof. unfold _logistic. rewrite Ropp_0, exp_0. lra. Qed.

(** with a zero bias row the visible bias unit is on with probability 1/2:
    a draw of 1/2 or more turns it off *)
Lemma visible_states_bias_off (w u0 : R) (g : RandomState) :
  1 / 2 <= stream g (cursor g + 2) ->
  exists x, Gibbs.visible_states (NdArray 2 [[0; 0]; [0; w]]) g 2 2 [1; u0] = [0; x].
Proof.
  intros Hdraw.
  unfold Gibbs.visible_states, Gibbs.hidden_states, dot_row, cols, T, draws, advance.
  cbn -[Rplus Rmult Rminus Ropp Rinv Rdiv IZR sqrt exp _logistic greater].
  eexists. f_equal.
  match goal with |- greater (_logistic ?a) _ = _ => replace a with 0 by ring end.
  rewrite logistic_0. unfold greater.
  destruct (Rgt_dec (1 / 2) (stream g (cursor g + 2))) as [Hgt|_]; [lra | reflexivity].
Qed.

Lemma initial_weights_1_1 (mt19937 : Z -> nat -> R) :
  exists w, initial_weights mt19937 1 1 = NdArray 2 [[0; 0]; [0; w]].
Proof. eexists. unfold initial_weights. reflexivity. Qed.

(** C2 (the code does not keep the bias entry).  After [r = RBM(1, 1)], in
    [r.daydream(3)]: the array [samples] is [[1, u0], [1, 1], [1, 1]] when the
    loop starts, [u0] being the first double drawn; when the fourth double
    drawn is 1/2 or more, iteration [i = 1] stores a row whose entry 0 is 0,
    and that row is the vector [visible] of iteration [i = 2]: its bias entry
    is 0, not 1. *)
Theorem daydream_visible_bias_zeroed (mt19937 : Z -> nat -> R) (s : state) :
  1 / 2 <= stream (np_random s) (cursor (np_random s) + 3) ->
  let s1 := snd (__init__ mt19937 1 1 s) in
  let u0 := stream (np_random s) (cursor (np_random s)) in
  let samples0 := NdArray 2 [[1; u0]; [1; 1]; [1; 1]] in
  let s0 := {| self := self s1; np_random := advance (np_random s) 1;
               stdout := stdout s |} in
  daydream 3 s1 =
    (samples <- for_each [1; 2]%Z daydream_step samples0 ;; ret (drop_col0 samples)) s0 /\
  exists x s2,
    daydream_step 1 samples0 s0 = (Ok (NdArray 2 [[1; u0]; [0; x]; [1; 1]]), s2) /\
    get_row (NdArray 2 [[1; u0]; [0; x]; [1; 1]]) (2 - 1) = Ok [0; x].
Proof.
  intros Hdraw s1 u0 samples0 s0.
  assert (Hs1 : s1 = {| self := {| num_hidden := 1; num_visible := 1; debug_print := true;
                                  weights := initial_weights mt19937 1 1 |};
                        np_random := np_random s; stdout := stdout s |})
    by (unfold s1; rewrite init_run by lia; reflexivity).
  split.
  - rewrite Hs1. unfold s0. rewrite Hs1. reflexivity.
  - destruct (initial_weights_1_1 mt19937) as (w & Hw).
    assert (He : wf_engine (self s0)).
    { unfold s0. rewrite Hs1. cbn [self]. unfold wf_engine.
      cbn [num_visible num_hidden weights]. rewrite Hw.
      unfold wf; simpl. repeat split; try lia. repeat constructor. }
    destruct (visible_states_bias_off w u0 (advance (np_random s) 1)) as (x & Hx).
    { simpl. replace (cursor (np_random s) + 1 + 2)%nat
        with (cursor (np_random s) + 3)%nat by lia. exact Hdraw. }
    exists x. eexists. split; [|reflexivity].
    rewrite daydream_step_run.
    + unfold s0 at 1 2 3 4 5. rewrite Hs1. cbn [self weights num_visible num_hidden].
      rewrite Hw. unfold samples0 at 2.
      change (nth (Z.to_nat (1 - 1)) (rows (NdArray 2 [[1; u0]; [1; 1]; [1; 1]])) [])
        with [1; u0].
      change (S (Z.to_nat 1)) with 2%nat. cbn [np_random]. rewrite Hx. reflexivity.
    + exact He.
    + unfold wf, samples0; simpl. repeat constructor.
    + unfold s0. rewrite Hs1. reflexivity.
    + unfold samples0, shape0; simpl. lia.
Qed.

Lemma daydream_visible_bias_zeroed_witness :
  let s1 := snd (__init__ sample_doubles 1 1 demo_state) in
  let samples0 := NdArray 2 [[1; 0.75]; [1; 1]; [1; 1]] in
  let s0 := {| self := self s1; np_random := advance (constant_stream 0.75) 1;
               stdout := [] |} in
  daydream 3 s1 =
    (samples <- for_each [1; 2]%Z daydream_step samples0 ;; ret (drop_col0 samples)) s0 /\
  exists x s2,
    daydream_step 1 samples0 s0 = (Ok (NdArray 2 [[1; 0.75]; [0; x]; [1; 1]]), s2) /\
    get_row (NdArray 2 [[1; 0.75]; [0; x]; [1; 1]]) (2 - 1) = Ok [0; x].
Proof.
  apply (daydream_visible_bias_zeroed sample_doubles demo_state).
  simpl. lra.
Defined.

(** ** [train] does change the weights *)

Lemma Rsum_const (n : nat) (c : R) : Rsum n (fun _ => c) = INR n * c.
Proof.
  induction n as [|n IH].
  - unfold Rsum; simpl. ring.
  - rewrite Rsum_S, IH, S_INR. ring.
Qed.

Lemma Rsum_zero_factor (n : nat) (f g : nat -> R) :
  (forall k, (k < n)%nat -> g k = 0) -> Rsum n (fun k => f k * g k) = 0.
Proof.
  intros Hg. rewrite (Rsum_ext n _ (fun _ => 0)).
  - rewrite Rsum_const. ring.
  - intros k Hk. rewrite Hg by exact Hk. ring.
Qed.

Lemma demo_weights_zero (i j : nat) : entry (weights demo_engine) i j = 0.
Proof.
  unfold entry; simpl.
  do 7 (destruct i as [|i]; [do 3 (destruct j as [|j]; [reflexivity|]); destruct j; reflexivity|]).
  destruct i; destruct j; reflexivity.
Qed.

(** one epoch on the data of the script takes the weight of the two bias
    units from 0 to 0.05 *)
Lemma train_changes_weights :
  exists s',
    train training_data 1 0.1 demo_state = (Ok tt, s') /\
    entry (weights (self s')) 0 0 = 0.05 /\
    weights (self s') <> weights (self demo_state).
Proof.
  destruct (train_epoch_ok training_data 0.1 0 demo_state)
    as (s' & Hstep & _ & _ & _ & HW'); [exact demo_engine_wf | exact training_data_wf | reflexivity |].
  assert (Hentry : entry (weights (self s')) 0 0 = 0.05).
  { rewrite HW'.
    rewrite (new_weights_entry training_data (weights demo_engine) _ 6 2);
      [| exact training_data_wf | reflexivity | apply demo_engine_wf | reflexivity
       | reflexivity | lia | lia].
    unfold Spec.update, Spec.posAssociations, Spec.negAssociations, Spec.matmul.
    rewrite (Rsum_ext _ _ (fun _ => 1)) by (intros k _; cbv [Spec.transpose Spec.augment
      Spec.posHiddenProb Spec.force_col0]; ring).
    rewrite Rsum_const.
    rewrite (Rsum_ext _ _ (fun _ => 1 / 2)).
    - rewrite Rsum_const, demo_weights_zero.
      change (shape0 training_data) with 6%nat.
      replace (INR 6) with 6 by (simpl; lra). lra.
    - intros k _. cbv [Spec.transpose Spec.negVisibleProb Spec.negHiddenProb
        Spec.force_col0 Spec.apply Spec.matmul].
      rewrite Rsum_zero_factor by (intros l _; apply demo_weights_zero).
      rewrite <- _logistic_spec, logistic_0. ring. }
  exists s'. split; [|split; [exact Hentry|]].
  - unfold train. cbv zeta. change (range 0 1) with [0%Z]. cbn [for_each].
    unfold bind. rewrite Hstep. reflexivity.
  - intros Heq. rewrite Heq in Hentry. rewrite demo_weights_zero in Hentry. lra.
Qed.

(** C9.  [run_visible], [run_hidden] and [daydream] leave the object as it
    was, its weights, [num_visible] and [num_hidden] included, whatever
    their argument and whether they return or raise; [train] is the method
    that changes the weights, as one epoch on the data of the script shows. *)
Theorem inference_and_sampling_keep_self
    (data : ndarray) (num_samples : Z) (s : state) :
  self (snd (run_visible data s)) = self s /\
  self (snd (run_hidden data s)) = self s /\
  self (snd (daydream num_samples s)) = self s /\
  exists s',
    train training_data 1 0.1 demo_state = (Ok tt, s') /\
    weights (self s') <> weights (self demo_state).
Proof.
  split; [apply preserves_run_visible|].
  split; [apply preserves_run_hidden|].
  split; [apply preserves_daydream|].
  destruct train_changes_weights as (s' & Hrun & _ & Hne).
  exists s'. split; assumption.
Qed.

Lemma sample_doubles_unit_interval (seed : Z) : unit_interval (sample_doubles seed).
Proof.
  intros i. unfold sample_doubles.
  do 12 (destruct i as [|i]; [simpl; lra|]). destruct i; simpl; lra.
Qed.

Lemma init_weights_shape_bias_bounds_witness :
  exists s',
    __init__ sample_doubles 6 2 demo_state = (Ok tt, s') /\
    num_visible (self s') = 6%Z /\ num_hidden (self s') = 2%Z /\
    let W := weights (self s') in
    let bound := 0.1 * sqrt (6 / IZR (2 + 6)) in
    wf W /\
    Z.of_nat (shape0 W) = (6 + 1)%Z /\
    Z.of_nat (ncols W) = (2 + 1)%Z /\
    (forall j, (j < ncols W)%nat -> entry W 0 j = 0) /\
    (forall i, (i < shape0 W)%nat -> entry W i 0 = 0) /\
    (forall i j, (1 <= i < shape0 W)%nat -> (1 <= j < ncols W)%nat ->
       - bound <= entry W i j <= bound).
Proof.
  apply (init_weights_shape_bias_bounds sample_doubles 6 2 demo_state).
  - apply sample_doubles_unit_interval.
  - lia.
  - lia.
Defined.

(** * Further properties of the code *)

(** ** [_logistic] *)

Lemma logistic_inv (x : R) : _logistic x = / (1 + exp (- x)).
Proof. unfold _logistic. unfold Rdiv. lra. Qed.

Lemma logistic_bounds (x : R) : 0 < / (1 + exp (- x)) < 1.
Proof.
  pose proof (exp_pos (- x)) as He. split.
  - apply Rinv_0_lt_compat. lra.
  - rewrite <- Rinv_1 at 2. apply Rinv_0_lt_contravar; lra.
Qed.

(** X1.  [_logistic] never leaves the interval from 0 to 1.  (Over the reals
    it stays strictly inside; float64 reaches both ends, 1.0 from x = 37 on,
    so the bounds are stated with the ends included.) *)
Theorem logistic_range (x : R) : 0 <= _logistic x <= 1.
Proof.
  rewrite logistic_inv. destruct (logistic_bounds x) as (Hlo & Hhi). split; lra.
Qed.

(** ** [__init__], once more *)

(** X4.  For dimensions that are not negative and not both zero (one of them
    may be zero), [__init__] returns without error and establishes the class
    invariant: the weights are a well-formed array of [num_visible + 1] rows
    and [num_hidden + 1] columns.  It also switches [debug_print] on. *)
Theorem init_establishes_invariant
    (mt19937 : Z -> nat -> R) (V H : Z) (s : state) :
  (0 <= V)%Z -> (0 <= H)%Z -> (0 < V + H)%Z ->
  exists s',
    __init__ mt19937 V H s = (Ok tt, s') /\
    wf_engine (self s') /\
    num_visible (self s') = V /\ num_hidden (self s') = H /\
    debug_print (self s') = true.
Proof.
  intros HV HH Hsum. eexists. split; [apply init_run; lia|].
  cbn [self num_visible num_hidden debug_print].
  split; [|repeat split].
  destruct (initial_weights_shape mt19937 V H) as (Hw & H0 & H1).
  unfold wf_engine. cbn [num_visible num_hidden weights].
  repeat split; try assumption; lia.
Qed.

Lemma init_establishes_invariant_witness :
  exists s',
    __init__ sample_doubles 0 2 demo_state = (Ok tt, s') /\
    wf_engine (self s') /\
    num_visible (self s') = 0%Z /\ num_hidden (self s') = 2%Z /\
    debug_print (self s') = true.
Proof.
  apply (init_establishes_invariant sample_doubles 0 2 demo_state); lia.
Defined.

(** X5.  [__init__] draws from a generator of its own: whatever its
    arguments, and whether it returns or raises, it leaves the process-wide
    generator where it was and prints nothing. *)
Theorem init_keeps_global_generator
    (mt19937 : Z -> nat -> R) (V H : Z) (s : state) :
  np_random (snd (__init__ mt19937 V H s)) = np_random s /\
  stdout (snd (__init__ mt19937 V H s)) = stdout s.
Proof.
  unfold __init__, bind, set_num_hidden, set_num_visible, set_debug_print,
    set_weights, set_self, get_weights, lift, float_div, uniform.
  cbn [self num_hidden num_visible debug_print weights np_random stdout].
  destruct (H + V =? 0)%Z; [split; reflexivity|].
  destruct ((V <? 0)%Z || (H <? 0)%Z); split; reflexivity.
Qed.

(** ** What a run of [train] leaves behind *)

Lemma advance_advance (g : RandomState) (a b : nat) :
  advance (advance g a) b = advance g (a + b).
Proof. unfold advance; simpl. rewrite Nat.add_assoc. reflexivity. Qed.

Lemma advance_0 (g : RandomState) : advance g 0 = g.
Proof. destruct g as [st c]. unfold advance; simpl. rewrite Nat.add_0_r. reflexivity. Qed.

Lemma length_range (start stop : Z) :
  length (range start stop) = Z.to_nat (stop - start).
Proof. unfold range. rewrite length_map, length_seq. reflexivity. Qed.

Lemma range_to_nat (stop : Z) : range 0 stop = range 0 (Z.of_nat (Z.to_nat stop)).
Proof. unfold range. do 2 f_equal. lia. Qed.

Lemma combine_snoc {A B : Type} (l : list A) (l' : list B) (x : A) (y : B) :
  length l = length l' ->
  combine (l ++ [x]) (l' ++ [y]) = (combine l l' ++ [(x, y)])%list.
Proof.
  revert l'. induction l as [|a l IH]; intros [|b l'] Hlen; simpl in *; try discriminate.
  - reflexivity.
  - rewrite IH by lia. reflexivity.
Qed.

Lemma fold_plus_nonneg (l : list R) :
  Forall (fun x => 0 <= x) l -> 0 <= fold_right Rplus 0 l.
Proof.
  induction 1 as [|x l Hx Hl IH]; simpl; lra.
Qed.

(** a sum of squares is not negative *)
Lemma error_nonneg (X W U : ndarray) : 0 <= Epoch.error X W U.
Proof.
  unfold Epoch.error, np_sum. apply fold_plus_nonneg.
  apply Forall_map. simpl. apply Forall_map, Forall_forall. intros r _.
  apply fold_plus_nonneg. apply Forall_map, Forall_forall. intros x _.
  apply pow2_ge_0.
Qed.

(** the state after [n] epochs: the invariant, the generator and the lines
    printed *)
Lemma train_trace (data : ndarray) (lr : R) (n : nat) (s : state) :
  wf_engine (self s) -> wf data -> Z.of_nat (ncols data) = num_visible (self s) ->
  exists s' errs,
    train data (Z.of_nat n) lr s = (Ok tt, s') /\
    wf_engine (self s') /\
    num_visible (self s') = num_visible (self s) /\
    num_hidden (self s') = num_hidden (self s) /\
    debug_print (self s') = debug_print (self s) /\
    np_random s' =
      advance (np_random s) (n * (shape0 data * S (Z.to_nat (num_hidden (self s))))) /\
    length errs = n /\
    Forall (fun e => 0 <= e) errs /\
    stdout s' = if debug_print (self s)
                then (stdout s ++ combine (range 0 (Z.of_nat n)) errs)%list
                else stdout s.
Proof.
  intros He Hd Hc. induction n as [|n IH].
  - exists s, []. unfold train. rewrite range_nonpositive by lia. simpl. unfold ret.
    rewrite advance_0, app_nil_r.
    split; [reflexivity|]. split; [exact He|]. do 5 (split; [reflexivity|]).
    split; [constructor|]. destruct (debug_print (self s)); reflexivity.
  - destruct IH as (sn & errs & Hrun & Hen & HVn & HHn & HDn & Hgn & Hlen & Hpos & Hout).
    destruct (wf_engine_shape _ Hen) as (HW0 & HW1 & HHnat).
    pose proof Hen as (HV & HH & HWw & _).
    assert (HVnat : Z.to_nat (num_visible (self sn)) = ncols data) by lia.
    rewrite HVnat in HW0.
    destruct (X_shape data (ncols data) Hd eq_refl) as (HXw & HX0 & HX1).
    pose proof (train_epoch_run (np_insert_col 1 data) (shape0 data) (ncols data)
                  (Z.to_nat (num_hidden (self sn))) lr (Z.of_nat n) sn
                  HXw HX0 HX1 HWw HW0 HW1 HHnat) as Hstep.
    cbv zeta in Hstep.
    destruct (new_weights_shape (np_insert_col 1 data) (weights (self sn))
                (rand_array (np_random sn) (shape0 data) (S (Z.to_nat (num_hidden (self sn)))))
                (shape0 data) (ncols data) (Z.to_nat (num_hidden (self sn))))
      with (lr := lr) as (Hnw & Hn0 & Hn1);
      try assumption; try apply wf_rand_array; try apply shape0_rand_array; try reflexivity.
    eexists.
    exists (errs ++ [Epoch.error (np_insert_col 1 data) (weights (self sn))
                       (rand_array (np_random sn) (shape0 data)
                          (S (Z.to_nat (num_hidden (self sn)))))])%list.
    split.
    { unfold train in *. replace (Z.of_nat (S n)) with (Z.of_nat n + 1)%Z by lia.
      rewrite range_snoc by lia. rewrite for_each_app, Hrun. cbn [for_each].
      unfold bind. rewrite Hstep. reflexivity. }
    cbn [self num_visible num_hidden debug_print weights np_random stdout].
    split; [unfold wf_engine; cbn [num_visible num_hidden weights];
            repeat split; try assumption; lia|].
    split; [exact HVn|]. split; [exact HHn|]. split; [exact HDn|].
    split; [rewrite Hgn, advance_advance, HHn; f_equal; lia|].
    split; [rewrite length_app, Hlen; simpl; lia|].
    split; [apply Forall_app; split; [exact Hpos | constructor; [apply error_nonneg | constructor]]|].
    rewrite HDn, Hout. destruct (debug_print (self s)); [|reflexivity].
    replace (Z.of_nat (S n)) with (Z.of_nat n + 1)%Z by lia.
    rewrite range_snoc by lia.
    rewrite combine_snoc by (rewrite length_range, Hlen; lia).
    rewrite app_assoc. reflexivity.
Qed.

Lemma train_to_nat (data : ndarray) (max_epochs : Z) (lr : R) (s : state) :
  train data max_epochs lr s = train data (Z.of_nat (Z.to_nat max_epochs)) lr s.
Proof. unfold train. rewrite range_to_nat. reflexivity. Qed.



(** X7.  What [train] prints.  With [debug_print] on it prints one line per
    epoch and nothing else: the epochs are numbered 0, 1, ... in order, and
    no error it reports is negative.  With [debug_print] off it prints
    nothing. *)
Theorem train_prints_one_line_per_epoch
    (data : ndarray) (max_epochs : Z) (learning_rate : R) (s : state) :
  wf_engine (self s) -> wf data -> Z.of_nat (ncols data) = num_visible (self s) ->
  exists s' errors,
    train data max_epochs learning_rate s = (Ok tt, s') /\
    length errors = Z.to_nat max_epochs /\
    Forall (fun e => 0 <= e) errors /\
    stdout s' = if debug_print (self s)
                then (stdout s ++ combine (range 0 max_epochs) errors)%list
                else stdout s.
Proof.
  intros He Hd Hc. rewrite train_to_nat.
  destruct (train_trace data learning_rate (Z.to_nat max_epochs) s He Hd Hc)
    as (s' & errs & Hrun & _ & _ & _ & _ & _ & Hlen & Hpos & Hout).
  exists s', errs. rewrite (range_to_nat max_epochs). auto.
Qed.

Lemma train_prints_one_line_per_epoch_witness :
  exists s' errors,
    train training_data 3 0.1 demo_state = (Ok tt, s') /\
    length errors = 3%nat /\
    Forall (fun e => 0 <= e) errors /\
    stdout s' = combine [0; 1; 2]%Z errors.
Proof.
  apply (train_prints_one_line_per_epoch training_data 3 0.1 demo_state).
  - exact demo_engine_wf.
  - exact training_data_wf.
  - reflexivity.
Defined.

(** X8.  [train] takes [num_examples * (num_hidden + 1)] doubles from the
    process-wide generator in every epoch, and nothing else: after
    [max_epochs] epochs the generator has advanced by that many doubles per
    epoch. *)
Theorem train_draws
    (data : ndarray) (max_epochs : Z) (learning_rate : R) (s : state) :
  wf_engine (self s) -> wf data -> Z.of_nat (ncols data) = num_visible (self s) ->
  exists s',
    train data max_epochs learning_rate s = (Ok tt, s') /\
    np_random s' =
      advance (np_random s)
        (Z.to_nat max_epochs * (shape0 data * S (Z.to_nat (num_hidden (self s))))).
Proof.
  intros He Hd Hc. rewrite train_to_nat.
  destruct (train_trace data learning_rate (Z.to_nat max_epochs) s He Hd Hc)
    as (s' & errs & Hrun & _ & _ & _ & _ & Hg & _).
  exists s'. auto.
Qed.

Lemma train_draws_witness :
  exists s',
    train training_data 1000 0.1 demo_state = (Ok tt, s') /\
    np_random s' = advance (constant_stream 0.75) (1000 * (6 * 3)).
Proof.
  apply (train_draws training_data 1000 0.1 demo_state).
  - exact demo_engine_wf.
  - exact training_data_wf.
  - reflexivity.
Defined.

(** ** Training in several calls *)

(** the state an epoch leaves, on an engine that satisfies the invariant *)
Lemma train_epoch_state (data : ndarray) (lr : R) (epoch : Z) (s : state) :
  wf_engine (self s) -> wf data -> Z.of_nat (ncols data) = num_visible (self s) ->
  train_epoch (np_insert_col 1 data) (shape0 data) lr epoch s =
  (Ok tt,
   {| self := {| num_hidden := num_hidden (self s);
                 num_visible := num_visible (self s);
                 debug_print := debug_print (self s);
                 weights :=
                   Epoch.new_weights (np_insert_col 1 data) (weights (self s))
                     (rand_array (np_random s) (shape0 data)
                        (S (Z.to_nat (num_hidden (self s)))))
                     (shape0 data) lr |};
      np_random :=
        advance (np_random s) (shape0 data * S (Z.to_nat (num_hidden (self s))));
      stdout :=
        if debug_print (self s)
        then (stdout s ++
              [(epoch,
                Epoch.error (np_insert_col 1 data) (weights (self s))
                  (rand_array (np_random s) (shape0 data)
                     (S (Z.to_nat (num_hidden (self s))))))])%list
        else stdout s |}).
Proof.
  intros He Hd Hc.
  destruct (wf_engine_shape _ He) as (HW0 & HW1 & HHnat).
  pose proof He as (HV & HH & HWw & _).
  assert (HVnat : Z.to_nat (num_visible (self s)) = ncols data) by lia.
  rewrite HVnat in HW0.
  destruct (X_shape data (ncols data) Hd eq_refl) as (HXw & HX0 & HX1).
  apply (train_epoch_run (np_insert_col 1 data) (shape0 data) (ncols data)
           (Z.to_nat (num_hidden (self s))) lr epoch s HXw HX0 HX1 HWw HW0 HW1 HHnat).
Qed.

Lemma train_succ (data : ndarray) (lr : R) (n : nat) (s sn : state) :
  train data (Z.of_nat n) lr s = (Ok tt, sn) ->
  train data (Z.of_nat (S n)) lr s =
  bind (train_epoch (np_insert_col 1 data) (shape0 data) lr (Z.of_nat n))
       (fun a => ret a) sn.
Proof.
  intros Hrun. unfold train in *.
  replace (Z.of_nat (S n)) with (Z.of_nat n + 1)%Z by lia.
  rewrite range_snoc by lia. rewrite for_each_app, Hrun. reflexivity.
Qed.

Lemma train_cumulative_nat (data : ndarray) (lr : R) (a b : nat) (s : state) :
  wf_engine (self s) -> wf data -> Z.of_nat (ncols data) = num_visible (self s) ->
  exists s_a s_b s_ab,
    train data (Z.of_nat a) lr s = (Ok tt, s_a) /\
    train data (Z.of_nat b) lr s_a = (Ok tt, s_b) /\
    train data (Z.of_nat (a + b)) lr s = (Ok tt, s_ab) /\
    wf_engine (self s_b) /\
    num_visible (self s_b) = num_visible (self s) /\
    self s_ab = self s_b /\ np_random s_ab = np_random s_b.
Proof.
  intros He Hd Hc.
  destruct (train_trace data lr a s He Hd Hc) as (s_a & _ & Ha & Hea & HVa & _).
  induction b as [|b IH].
  - exists s_a, s_a, s_a. rewrite Nat.add_0_r.
    split; [exact Ha|]. split; [|auto].
    unfold train. rewrite range_nonpositive by lia. reflexivity.
  - destruct IH as (s_a' & s_b & s_ab & Ha' & Hb & Hab & Heb & HVb & Hself & Hgen).
    rewrite Ha in Ha'. injection Ha' as <-.
    assert (Heab : wf_engine (self s_ab)) by (rewrite Hself; exact Heb).
    pose proof (train_epoch_state data lr (Z.of_nat b) s_b Heb Hd) as Hstep_b.
    pose proof (train_epoch_state data lr (Z.of_nat (a + b)) s_ab Heab Hd) as Hstep_ab.
    rewrite Hself in Hstep_ab. rewrite Hgen in Hstep_ab.
    eexists. eexists. eexists.
    split; [exact Ha|].
    split; [rewrite (train_succ data lr b s_a s_b Hb); unfold bind;
            rewrite Hstep_b by congruence; reflexivity|].
    split; [replace (a + S b)%nat with (S (a + b)) by lia;
            rewrite (train_succ data lr (a + b) s s_ab Hab); unfold bind;
            rewrite Hstep_ab by congruence; reflexivity|].
    cbn [self np_random num_visible].
    split; [|split; [exact HVb | split; reflexivity]].
    destruct (train_epoch_ok data lr (Z.of_nat b) s_b Heb Hd) as (s' & Hs' & He' & _);
      [congruence|].
    rewrite Hstep_b in Hs' by congruence. injection Hs' as <-. exact He'.
Qed.

(** X9.  Training is cumulative: [train] for [a] epochs followed by a second
    call for [b] epochs leaves the same object and the same generator as a
    single call for [a + b] epochs.  (The lines printed differ: the second
    call numbers its epochs from 0 again.) *)
Theorem train_cumulative
    (data : ndarray) (a b : Z) (learning_rate : R) (s : state) :
  wf_engine (self s) -> wf data -> Z.of_nat (ncols data) = num_visible (self s) ->
  (0 <= a)%Z -> (0 <= b)%Z ->
  exists s_a s_b s_ab,
    train data a learning_rate s = (Ok tt, s_a) /\
    train data b learning_rate s_a = (Ok tt, s_b) /\
    train data (a + b) learning_rate s = (Ok tt, s_ab) /\
    self s_ab = self s_b /\ np_random s_ab = np_random s_b.
Proof.
  intros He Hd Hc Ha Hb.
  destruct (train_cumulative_nat data learning_rate (Z.to_nat a) (Z.to_nat b) s He Hd Hc)
    as (s_a & s_b & s_ab & Hra & Hrb & Hrab & _ & _ & Hself & Hgen).
  rewrite Z2Nat.id in Hra, Hrb by lia.
  replace (Z.of_nat (Z.to_nat a + Z.to_nat b)) with (a + b)%Z in Hrab by lia.
  exists s_a, s_b, s_ab. auto.
Qed.

Lemma train_cumulative_witness :
  exists s_a s_b s_ab,
    train training_data 600 0.1 demo_state = (Ok tt, s_a) /\
    train training_data 400 0.1 s_a = (Ok tt, s_b) /\
    train training_data 1000 0.1 demo_state = (Ok tt, s_ab) /\
    self s_ab = self s_b /\ np_random s_ab = np_random s_b.
Proof.
  apply (train_cumulative training_data 600 400 0.1 demo_state).
  - exact demo_engine_wf.
  - exact training_data_wf.
  - reflexivity.
  - lia.
  - lia.
Defined.

(** ** A learning rate of zero *)

Lemma zip_with_plus_zero (u v : list R) :
  length u = length v -> zip_with Rplus u (map (fun x => 0 * x) v) = u.
Proof.
  revert v. induction u as [|x u IH]; intros [|y v] Hlen; simpl in *; try discriminate.
  - reflexivity.
  - rewrite IH by lia. f_equal. ring.
Qed.

Lemma zip_rows_plus_zero (c : nat) (a b : list (list R)) :
  length a = length b ->
  Forall (fun r => length r = c) a -> Forall (fun r => length r = c) b ->
  zip_rows Rplus a (map (map (fun x => 0 * x)) b) = a.
Proof.
  revert b. induction a as [|r a IH]; intros [|t b] Hlen Ha Hb; simpl in *;
    try discriminate.
  - reflexivity.
  - inversion Ha; subst. inversion Hb; subst.
    rewrite zip_with_plus_zero by congruence. rewrite IH; auto.
Qed.

Lemma new_weights_rate_zero (X W U : ndarray) (N V H : nat) :
  wf X -> shape0 X = N -> ncols X = S V ->
  wf W -> shape0 W = S V -> ncols W = S H ->
  wf U -> shape0 U = N -> ncols U = S H ->
  Epoch.new_weights X W U N 0 = W.
Proof.
  intros HX HX0 HX1 HW HW0 HW1 HU HU0 HU1.
  destruct (pa_shape X W N V H) as (Haw & Ha0 & Ha1); try assumption.
  destruct (na_shape X W U N V H) as (Hnw & Hn0 & Hn1); try assumption.
  unfold Epoch.new_weights, zip_nd at 1. cbn [rows ncols nd_map].
  rewrite (zip_rows_plus_zero (S H)).
  - destruct W; reflexivity.
  - rewrite length_map. fold (shape0 W).
    fold (shape0 (zip_nd Rminus (Epoch.pos_associations X W) (Epoch.neg_associations X W U))).
    rewrite shape0_zip_nd by congruence. congruence.
  - rewrite <- HW1. exact HW.
  - apply Forall_map.
    assert (Hd : wf (zip_nd Rminus (Epoch.pos_associations X W) (Epoch.neg_associations X W U)))
      by (apply wf_zip_nd; [assumption | assumption | congruence]).
    eapply Forall_impl; [|exact Hd]. simpl. intros r Hr. rewrite length_map. congruence.
Qed.

(** X10.  With [learning_rate = 0], on data of at least one row, the update
    adds nothing: after any number of epochs the object, its weights
    included, is what it was.  (The epochs still draw from the generator and
    print their lines.  On data without rows the code divides 0 by 0 and the
    weights are lost whatever the learning rate.) *)
Theorem train_rate_zero (data : ndarray) (max_epochs : Z) (s : state) :
  wf_engine (self s) -> wf data -> Z.of_nat (ncols data) = num_visible (self s) ->
  (0 < shape0 data)%nat ->
  exists s', train data max_epochs 0 s = (Ok tt, s') /\ self s' = self s.
Proof.
  intros He Hd Hc _. rewrite train_to_nat.
  induction (Z.to_nat max_epochs) as [|n IH].
  - exists s. unfold train. rewrite range_nonpositive by lia. auto.
  - destruct IH as (sn & Hrun & Hself).
    assert (Hen : wf_engine (self sn)) by (rewrite Hself; exact He).
    pose proof (train_epoch_state data 0 (Z.of_nat n) sn Hen Hd) as Hstep.
    rewrite Hself in Hstep. specialize (Hstep Hc).
    rewrite (train_succ data 0 n s sn Hrun). unfold bind. rewrite Hstep.
    eexists. split; [reflexivity|]. cbn [self].
    destruct (wf_engine_shape _ He) as (HW0 & HW1 & _).
    pose proof He as (HV & _ & HWw & _).
    destruct (X_shape data (ncols data) Hd eq_refl) as (HXw & HX0 & HX1).
    rewrite (new_weights_rate_zero _ _ _ (shape0 data) (ncols data)
               (Z.to_nat (num_hidden (self s))));
      try assumption; try apply wf_rand_array; try apply shape0_rand_array;
      try reflexivity.
    + destruct (self s); reflexivity.
    + rewrite HW0. lia.
Qed.

Lemma train_rate_zero_witness :
  exists s', train training_data 1000 0 demo_state = (Ok tt, s') /\ self s' = demo_engine.
Proof.
  apply (train_rate_zero training_data 1000 demo_state).
  - exact demo_engine_wf.
  - exact training_data_wf.
  - reflexivity.
  - unfold shape0, training_data; simpl; lia.
Defined.

(** ** What [run_visible] and [run_hidden] compute *)

Lemma entry_drop_col0 (m : ndarray) (i j : nat) :
  entry (drop_col0 m) i j = entry m i (S j).
Proof.
  unfold entry, drop_col0; simpl.
  rewrite (nth_map_gen (@tl R) _ []) by reflexivity.
  destruct (nth i (rows m) []) as [|x r]; simpl; [destruct j; reflexivity | reflexivity].
Qed.

Lemma Rsum_bias (n : nat) (a : nat -> R) (w : nat -> R) :
  Rsum (S n) (fun k => match k with O => 1 | S k' => a k' end * w k) =
  w O + Rsum n (fun k => a k * w (S k)).
Proof. rewrite Rsum_S. ring. Qed.

(** X11.  On an engine that satisfies the invariant and data of
    [num_visible] columns, [run_visible] returns an array of 0s and 1s in
    which hidden unit [j] of example [i] is 1 exactly when the logistic of
    its activation, the bias weight [W[0, j+1]] plus the sum of
    [data[i, k] * W[k+1, j+1]], is greater than the double drawn for it.  It
    takes [num_examples * (num_hidden + 1)] doubles from the generator and
    changes nothing else. *)
Theorem run_visible_samples (data : ndarray) (s : state) :
  wf_engine (self s) -> wf data -> Z.of_nat (ncols data) = num_visible (self s) ->
  let N := shape0 data in
  let V := ncols data in
  let H := Z.to_nat (num_hidden (self s)) in
  let W := weights (self s) in
  exists m,
    run_visible data s =
      (Ok m, {| self := self s; np_random := advance (np_random s) (N * S H);
                stdout := stdout s |}) /\
    Forall binary (rows m) /\
    forall i j, (i < N)%nat -> (j < H)%nat ->
      entry m i j =
      greater
        (_logistic (entry W 0 (S j) + Rsum V (fun k => entry data i k * entry W (S k) (S j))))
        (rand_entry (np_random s) (S H) i (S j)).
Proof.
  intros He Hd Hc N V H W.
  destruct (wf_engine_shape _ He) as (HW0 & HW1 & _). pose proof He as (HV & HH & HWw & _).
  assert (HVnat : Z.to_nat (num_visible (self s)) = V) by (unfold V; lia).
  rewrite HVnat in HW0.
  destruct (X_shape data V Hd eq_refl) as (HXw & HX0 & HX1).
  eexists. split; [apply run_visible_run; assumption|].
  set (P := nd_map _logistic (dot (np_insert_col 1 data) (weights (self s)))).
  assert (HP : wf P) by (apply wf_nd_map, wf_dot).
  assert (HP0 : shape0 P = N)
    by (unfold P; rewrite shape0_nd_map, shape0_dot; exact HX0).
  assert (HP1 : ncols P = S H) by exact HW1.
  destruct (sampled_states_shape P (np_random s) N H HP HP0 HP1) as (_ & _ & _ & Hbin).
  split; [exact Hbin|].
  intros i j Hi Hj. rewrite entry_drop_col0.
  rewrite entry_zip_nd;
    [| exact HP | apply wf_rand_array | rewrite shape0_rand_array; exact HP0
     | exact HP1 | lia | lia].
  rewrite entry_rand_array by lia. f_equal. unfold P.
  rewrite entry_nd_map; [| apply wf_dot | rewrite shape0_dot; lia | simpl; lia].
  f_equal.
  rewrite entry_dot; [| exact HXw | congruence | lia | lia].
  rewrite HX1.
  rewrite (Rsum_ext _ _ (fun k => match k with O => 1 | S k' => entry data i k' end
                                  * entry W k (S j)))
    by (intros k _; rewrite X_entry by exact Hi; reflexivity).
  apply (Rsum_bias V (entry data i) (fun k => entry W k (S j))).
Qed.

Lemma run_visible_samples_witness :
  exists m,
    run_visible training_data demo_state =
      (Ok m, {| self := demo_engine; np_random := advance (constant_stream 0.75) (6 * 3);
                stdout := [] |}) /\
    Forall binary (rows m) /\
    forall i j, (i < 6)%nat -> (j < 2)%nat ->
      entry m i j =
      greater
        (_logistic (entry (weights demo_engine) 0 (S j) +
                    Rsum 6 (fun k => entry training_data i k *
                                     entry (weights demo_engine) (S k) (S j))))
        (rand_entry (constant_stream 0.75) 3 i (S j)).
Proof.
  apply (run_visible_samples training_data demo_state).
  - exact demo_engine_wf.
  - exact training_data_wf.
  - reflexivity.
Defined.

(** X12.  On an engine that satisfies the invariant and data of
    [num_hidden] columns, [run_hidden] returns an array of 0s and 1s in which
    visible unit [j] of example [i] is 1 exactly when the logistic of its
    activation, the bias weight [W[j+1, 0]] plus the sum of
    [data[i, k] * W[j+1, k+1]], is greater than the double drawn for it.  It
    takes [num_examples * (num_visible + 1)] doubles from the generator and
    changes nothing else. *)
Theorem run_hidden_samples (data : ndarray) (s : state) :
  wf_engine (self s) -> wf data -> Z.of_nat (ncols data) = num_hidden (self s) ->
  let N := shape0 data in
  let H := ncols data in
  let V := Z.to_nat (num_visible (self s)) in
  let W := weights (self s) in
  exists m,
    run_hidden data s =
      (Ok m, {| self := self s; np_random := advance (np_random s) (N * S V);
                stdout := stdout s |}) /\
    Forall binary (rows m) /\
    forall i j, (i < N)%nat -> (j < V)%nat ->
      entry m i j =
      greater
        (_logistic (entry W (S j) 0 + Rsum H (fun k => entry data i k * entry W (S j) (S k))))
        (rand_entry (np_random s) (S V) i (S j)).
Proof.
  intros He Hd Hc N H V W.
  destruct (wf_engine_shape _ He) as (HW0 & HW1 & _). pose proof He as (HV & HH & HWw & _).
  assert (HHnat : Z.to_nat (num_hidden (self s)) = H) by (unfold H; lia).
  rewrite HHnat in HW1.
  destruct (X_shape data H Hd eq_refl) as (HXw & HX0 & HX1).
  eexists. split; [apply run_hidden_run; assumption|].
  set (P := nd_map _logistic (dot (np_insert_col 1 data) (T (weights (self s))))).
  assert (HP : wf P) by (apply wf_nd_map, wf_dot).
  assert (HP0 : shape0 P = N)
    by (unfold P; rewrite shape0_nd_map, shape0_dot; exact HX0).
  assert (HP1 : ncols P = S V) by exact HW0.
  destruct (sampled_states_shape P (np_random s) N V HP HP0 HP1) as (_ & _ & _ & Hbin).
  split; [exact Hbin|].
  intros i j Hi Hj. rewrite entry_drop_col0.
  rewrite entry_zip_nd;
    [| exact HP | apply wf_rand_array | rewrite shape0_rand_array; exact HP0
     | exact HP1 | lia | lia].
  rewrite entry_rand_array by lia. f_equal. unfold P.
  rewrite entry_nd_map;
    [| apply wf_dot | rewrite shape0_dot; lia | unfold dot, T; cbn [ncols]; lia].
  f_equal.
  rewrite entry_dot;
    [| exact HXw | rewrite shape0_T; congruence | lia | unfold T; cbn [ncols]; lia].
  rewrite HX1.
  rewrite (Rsum_ext _ _ (fun k => match k with O => 1 | S k' => entry data i k' end
                                  * entry W (S j) k)).
  - apply (Rsum_bias H (entry data i) (fun k => entry W (S j) k)).
  - intros k Hk. rewrite X_entry by exact Hi.
    rewrite entry_T by (try unfold W; rewrite HW1; exact Hk). reflexivity.
Qed.

Lemma run_hidden_samples_witness :
  exists m,
    run_hidden two_columns demo_state =
      (Ok m, {| self := demo_engine; np_random := advance (constant_stream 0.75) (2 * 7);
                stdout := [] |}) /\
    Forall binary (rows m) /\
    forall i j, (i < 2)%nat -> (j < 6)%nat ->
      entry m i j =
      greater
        (_logistic (entry (weights demo_engine) (S j) 0 +
                    Rsum 2 (fun k => entry two_columns i k *
                                     entry (weights demo_engine) (S j) (S k))))
        (rand_entry (constant_stream 0.75) 7 i (S j)).
Proof.
  apply (run_hidden_samples two_columns demo_state).
  - exact demo_engine_wf.
  - unfold wf, two_columns; simpl. repeat constructor.
  - reflexivity.
Defined.

(** ** Data of the wrong width in [run_visible] and [run_hidden] *)

(** X13.  On an engine that satisfies the invariant, [run_visible] on data
    whose number of columns is not [num_visible] raises numpy's [ValueError]
    at its matrix product: nothing has been drawn by then, and the state is
    what it was. *)
Theorem run_visible_shape_mismatch (data : ndarray) (s : state) :
  wf_engine (self s) -> Z.of_nat (ncols data) <> num_visible (self s) ->
  run_visible data s = (Raise ValueError, s).
Proof.
  intros He Hc. destruct (wf_engine_shape _ He) as (HW0 & _ & _).
  destruct He as (HV & HH & _).
  unfold run_visible, bind, lift, get_num_hidden, get_weights.
  rewrite (np_ones_eq (shape0 data) (S (Z.to_nat (num_hidden (self s)))))
    by (try reflexivity; lia).
  rewrite np_dot_mismatch; [reflexivity|]. simpl. rewrite HW0. lia.
Qed.

Lemma run_visible_shape_mismatch_witness :
  run_visible two_columns demo_state = (Raise ValueError, demo_state).
Proof.
  apply (run_visible_shape_mismatch two_columns demo_state).
  - exact demo_engine_wf.
  - simpl. lia.
Defined.

(** X14.  On an engine that satisfies the invariant, [run_hidden] on data
    whose number of columns is not [num_hidden] raises numpy's [ValueError]
    at its matrix product: nothing has been drawn by then, and the state is
    what it was. *)
Theorem run_hidden_shape_mismatch (data : ndarray) (s : state) :
  wf_engine (self s) -> Z.of_nat (ncols data) <> num_hidden (self s) ->
  run_hidden data s = (Raise ValueError, s).
Proof.
  intros He Hc. destruct (wf_engine_shape _ He) as (_ & HW1 & _).
  destruct He as (HV & HH & _).
  unfold run_hidden, bind, lift, get_num_visible, get_weights.
  rewrite (np_ones_eq (shape0 data) (S (Z.to_nat (num_visible (self s)))))
    by (try reflexivity; lia).
  rewrite np_dot_mismatch; [reflexivity|].
  rewrite shape0_T. simpl. rewrite HW1. lia.
Qed.

Lemma run_hidden_shape_mismatch_witness :
  run_hidden training_data demo_state = (Raise ValueError, demo_state).
Proof.
  apply (run_hidden_shape_mismatch training_data demo_state).
  - exact demo_engine_wf.
  - simpl. lia.
Defined.

(** ** The generator in [daydream] *)

(** X15.  [daydream(1)] runs no Gibbs step: on an engine whose
    [num_visible] is not negative it returns the one row of the
    [num_visible] doubles it draws, as they are, and changes nothing but the
    generator. *)
Theorem daydream_one_sample (s : state) :
  (0 <= num_visible (self s))%Z ->
  let V := Z.to_nat (num_visible (self s)) in
  daydream 1 s =
  (Ok (NdArray V [draws (np_random s) V]),
   {| self := self s; np_random := advance (np_random s) V; stdout := stdout s |}).
Proof.
  intros HV V. unfold daydream, bind, lift, get_num_visible.
  rewrite (np_ones_eq 1 (S V)) by (unfold V; lia).
  rewrite (np_random_rand1_eq V) by (unfold V; lia).
  unfold set_row0_from1. cbn [rows ncols repeat firstn pred].
  rewrite length_draws, Nat.eqb_refl.
  rewrite range_nonpositive by lia. reflexivity.
Qed.

Lemma daydream_one_sample_witness :
  daydream 1 demo_state =
  (Ok (NdArray 6 [[0.75; 0.75; 0.75; 0.75; 0.75; 0.75]]),
   {| self := demo_engine; np_random := advance (constant_stream 0.75) 6; stdout := [] |}).
Proof.
  apply (daydream_one_sample demo_state). simpl. lia.
Defined.

(** the generator and the lines printed after the loop of [daydream] *)
Lemma daydream_loop_state (m : nat) :
  forall (i : Z) (samples : ndarray) (s : state),
    wf_engine (self s) -> wf samples ->
    Z.of_nat (ncols samples) = (num_visible (self s) + 1)%Z ->
    (1 <= i)%Z -> (i + Z.of_nat m = Z.of_nat (shape0 samples))%Z ->
    exists samples' s',
      for_each (range i (Z.of_nat (shape0 samples))) daydream_step samples s =
        (Ok samples', s') /\
      np_random s' =
        advance (np_random s)
          (m * (S (Z.to_nat (num_hidden (self s))) + S (Z.to_nat (num_visible (self s))))) /\
      stdout s' = stdout s.
Proof.
  induction m as [|m IH]; intros i samples s He Hs Hc Hi Hm.
  - exists samples, s. rewrite range_nonpositive by lia. simpl. unfold ret.
    rewrite advance_0. auto.
  - rewrite range_cons by lia. simpl for_each. unfold bind.
    rewrite daydream_step_run by (try assumption; lia).
    set (vs := Gibbs.visible_states _ _ _ _ _).
    set (samples1 := NdArray (ncols samples) (replace_nth (Z.to_nat i) vs (rows samples))).
    set (s1 := {| self := self s; np_random := _; stdout := stdout s |}).
    assert (Hvs : length vs = ncols samples).
    { unfold vs. destruct (wf_engine_shape _ He) as (HW0 & _ & _).
      pose proof He as (HV & _).
      rewrite length_visible_states by exact HW0. lia. }
    assert (H0 : shape0 samples1 = shape0 samples)
      by (unfold shape0, samples1; simpl; apply length_replace_nth).
    destruct (IH (i + 1)%Z samples1 s1) as (samples' & s' & Hrun & Hgen & Hout).
    + exact He.
    + unfold wf, samples1; simpl. apply Forall_replace_nth; [exact Hs | exact Hvs].
    + exact Hc.
    + lia.
    + rewrite H0. lia.
    + rewrite H0 in Hrun. exists samples', s'. split; [exact Hrun|]. split; [|exact Hout].
      rewrite Hgen. unfold s1. cbn [self np_random]. rewrite !advance_advance.
      f_equal. lia.
Qed.

(** X16.  For [num_samples >= 1], on an engine that satisfies the invariant,
    [daydream] takes [num_visible] doubles for row 0 and then
    [(num_hidden + 1) + (num_visible + 1)] doubles for each further row, in
    that order, from the process-wide generator; it prints nothing. *)
Theorem daydream_draws (num_samples : Z) (s : state) :
  wf_engine (self s) -> (1 <= num_samples)%Z ->
  let V := Z.to_nat (num_visible (self s)) in
  let H := Z.to_nat (num_hidden (self s)) in
  exists m s',
    daydream num_samples s = (Ok m, s') /\
    np_random s' =
      advance (np_random s) (V + (Z.to_nat num_samples - 1) * (S H + S V)) /\
    stdout s' = stdout s.
Proof.
  intros He Hn V H. pose proof He as (HV & HH & _).
  unfold daydream, bind, lift, get_num_visible.
  rewrite (np_ones_eq (Z.to_nat num_samples) (S V)) by (unfold V; lia).
  rewrite (np_random_rand1_eq V) by (unfold V; lia).
  unfold set_row0_from1. cbn [rows ncols].
  destruct (Z.to_nat num_samples) as [|n'] eqn:Hn'; [lia|].
  cbn [repeat firstn]. rewrite length_draws. cbn [pred]. rewrite Nat.eqb_refl.
  set (samples0 := NdArray (S V) _).
  set (s0 := {| self := self s; np_random := _; stdout := stdout s |}).
  assert (H0 : shape0 samples0 = S n')
    by (unfold shape0, samples0; simpl; rewrite repeat_length; reflexivity).
  destruct (daydream_loop_state n' 1%Z samples0 s0) as (samples' & s' & Hrun & Hgen & Hout).
  - exact He.
  - unfold wf, samples0; simpl. constructor.
    + cbn [length]. rewrite length_draws. reflexivity.
    + apply Forall_forall. intros r Hr. apply repeat_spec in Hr. subst r.
      simpl. rewrite repeat_length. reflexivity.
  - unfold samples0, s0; simpl ncols; cbn [self]. unfold V. lia.
  - lia.
  - rewrite H0. lia.
  - rewrite H0 in Hrun. replace (Z.of_nat (S n')) with num_samples in Hrun by lia.
    rewrite Hrun. unfold ret. eexists. eexists. split; [reflexivity|].
    split; [|exact Hout]. rewrite Hgen. unfold s0. cbn [self np_random].
    rewrite advance_advance. f_equal. fold H V. lia.
Qed.

Lemma daydream_draws_witness :
  exists m s',
    daydream 5 demo_state = (Ok m, s') /\
    np_random s' = advance (constant_stream 0.75) (6 + 4 * (3 + 7)) /\
    stdout s' = [].
Proof.
  apply (daydream_draws 5 demo_state).
  - exact demo_engine_wf.
  - lia.
Defined.

(** ** The script *)

Lemma report_line_run (w : Z) (lines : list (String.string * R)) (s : state) :
  shape0 (weights (self s)) = 7%nat -> ncols (weights (self s)) = 3%nat ->
  (1 <= w <= 6)%Z ->
  report_line w lines s =
  (Ok (lines ++ [(nth (Z.to_nat (w - 1)) F ""%string,
                  entry (weights (self s)) (Z.to_nat w) 1 +
                  entry (weights (self s)) (Z.to_nat w) 2)])%list, s).
Proof.
  intros H7 H3 Hw. unfold report_line.
  replace (w >? 0)%Z with true by (symmetry; apply Z.gtb_lt; lia).
  assert (Hlabel : list_get F (w - 1) = Ok (nth (Z.to_nat (w - 1)) F ""%string)).
  { unfold list_get. rewrite index_in_range by (simpl; lia).
    assert (Hk : (Z.to_nat (w - 1) < length F)%nat) by (simpl; lia).
    destruct (nth_error F (Z.to_nat (w - 1))) as [x|] eqn:Hx.
    - rewrite (nth_error_nth _ _ _ Hx). reflexivity.
    - apply nth_error_None in Hx. lia. }
  unfold bind, lift, get_weights, ret, get_entry. rewrite Hlabel.
  rewrite H7, H3. rewrite !index_in_range by lia. reflexivity.
Qed.

(** X17.  The script runs to its end whatever the generators yield and
    whatever state it starts in: no call of it raises, the trained weights
    are a 7 x 3 array, each of the 1000 epochs has printed its line, and the
    final loop reports the six features of [F] in order, each with the sum
    of the two hidden-unit weights of its row. *)
Theorem main_runs (mt19937 : Z -> nat -> R) (s : state) :
  exists s',
    main mt19937 s =
      (Ok (combine F
             (map (fun w => entry (weights (self s')) w 1 + entry (weights (self s')) w 2)
                [1; 2; 3; 4; 5; 6]%nat)), s') /\
    wf_engine (self s') /\
    shape0 (weights (self s')) = 7%nat /\ ncols (weights (self s')) = 3%nat /\
    length (stdout s') = (length (stdout s) + 1000)%nat.
Proof.
  unfold main, bind. rewrite init_run by lia.
  set (s1 := {| self := _; np_random := np_random s; stdout := stdout s |}).
  assert (He1 : wf_engine (self s1)).
  { destruct (initial_weights_shape mt19937 6 2) as (Hw & H0 & H1).
    unfold s1, wf_engine. cbn [self num_visible num_hidden weights].
    repeat split; try assumption; lia. }
  destruct (train_trace training_data 0.1 1000 s1 He1 training_data_wf eq_refl)
    as (s2 & errs & Hrun & He2 & HV & HH & _ & _ & Hlen & _ & Hout).
  change (Z.of_nat 1000) with 1000%Z in Hrun. rewrite Hrun.
  destruct (wf_engine_shape _ He2) as (H7 & H3 & _).
  rewrite HV in H7. rewrite HH in H3.
  change (S (Z.to_nat (num_visible (self s1)))) with 7%nat in H7.
  change (S (Z.to_nat (num_hidden (self s1)))) with 3%nat in H3.
  exists s2. split.
  - change (range 0 7) with [0; 1; 2; 3; 4; 5; 6]%Z. cbn [for_each]. unfold bind.
    change (report_line 0 [] s2) with (@Ok (list (String.string * R)) [], s2).
    cbv beta iota.
    do 6 (rewrite report_line_run by (try assumption; lia); cbv beta iota).
    reflexivity.
  - split; [exact He2|]. split; [exact H7|]. split; [exact H3|].
    rewrite Hout. change (debug_print (self s1)) with true. cbv iota.
    rewrite length_app, length_combine, length_range, Hlen. unfold s1; simpl stdout. lia.
Qed.

(** ** Operations in sequence *)

(** X18.  Reconstruction.  On an engine that satisfies the invariant,
    [run_hidden] accepts what [run_visible] returns: for data of
    [num_visible] columns the two calls in sequence raise nothing and return
    an array of 0s and 1s of the shape of the data, and the object is what it
    was. *)
Theorem run_visible_then_run_hidden (data : ndarray) (s : state) :
  wf_engine (self s) -> wf data -> Z.of_nat (ncols data) = num_visible (self s) ->
  exists m s',
    (hidden <- run_visible data ;; run_hidden hidden) s = (Ok m, s') /\
    wf m /\ shape0 m = shape0 data /\ ncols m = ncols data /\
    Forall binary (rows m) /\
    self s' = self s.
Proof.
  intros He Hd Hc.
  destruct (wf_engine_shape _ He) as (HW0 & HW1 & _). pose proof He as (HV & HH & _).
  unfold bind. rewrite run_visible_run by assumption.
  set (P := nd_map _logistic (dot (np_insert_col 1 data) (weights (self s)))).
  destruct (sampled_states_shape P (np_random s) (shape0 data)
              (Z.to_nat (num_hidden (self s)))) as (Hhw & Hh0 & Hh1 & _).
  { apply wf_nd_map, wf_dot. }
  { unfold P. rewrite shape0_nd_map, shape0_dot. apply shape0_insert_col. }
  { exact HW1. }
  set (hidden := drop_col0 _) in *.
  set (s1 := {| self := self s; np_random := _; stdout := stdout s |}).
  rewrite (run_hidden_run hidden s1);
    [| exact He | exact Hhw | unfold s1; cbn [self]; rewrite Hh1; lia].
  unfold s1. cbn [self np_random stdout].
  set (Q := nd_map _logistic (dot (np_insert_col 1 hidden) (T (weights (self s))))).
  destruct (sampled_states_shape Q (advance (np_random s)
                (shape0 data * S (Z.to_nat (num_hidden (self s)))))
              (shape0 hidden) (Z.to_nat (num_visible (self s))))
    as (Hw & H0 & H1 & Hbin).
  { apply wf_nd_map, wf_dot. }
  { unfold Q. rewrite shape0_nd_map, shape0_dot. apply shape0_insert_col. }
  { exact HW0. }
  eexists. eexists. split; [reflexivity|].
  split; [exact Hw|]. split; [rewrite H0; exact Hh0|]. split; [rewrite H1; lia|].
  split; [exact Hbin | reflexivity].
Qed.

Lemma run_visible_then_run_hidden_witness :
  exists m s',
    (hidden <- run_visible training_data ;; run_hidden hidden) demo_state = (Ok m, s') /\
    wf m /\ shape0 m = 6%nat /\ ncols m = 6%nat /\
    Forall binary (rows m) /\
    self s' = demo_engine.
Proof.
  apply (run_visible_then_run_hidden training_data demo_state).
  - exact demo_engine_wf.
  - exact training_data_wf.
  - reflexivity.
Defined.

(** X19.  An engine as [__init__] builds it is fit for every method.  For
    dimensions that are not negative and not both zero, data of
    [num_visible] columns, any number of epochs and any learning rate:
    construction, training, inference on the data and sampling in sequence
    raise nothing; inference returns one row of [num_hidden] entries per
    example and [daydream(k)], [k >= 1], returns k rows of [num_visible]
    entries. *)
Theorem construct_train_infer_sample
    (mt19937 : Z -> nat -> R) (V H : Z) (data : ndarray)
    (max_epochs : Z) (learning_rate : R) (k : Z) (s : state) :
  (0 <= V)%Z -> (0 <= H)%Z -> (0 < V + H)%Z ->
  wf data -> Z.of_nat (ncols data) = V -> (1 <= k)%Z ->
  exists hidden samples s',
    (__init__ mt19937 V H ;;
     train data max_epochs learning_rate ;;
     hidden <- run_visible data ;;
     samples <- daydream k ;;
     ret (hidden, samples)) s = (Ok (hidden, samples), s') /\
    wf hidden /\ shape0 hidden = shape0 data /\ Z.of_nat (ncols hidden) = H /\
    wf samples /\ Z.of_nat (shape0 samples) = k /\ Z.of_nat (ncols samples) = V.
Proof.
  intros HV HH Hsum Hd Hc Hk. unfold bind at 1. rewrite init_run by lia.
  set (s1 := {| self := _; np_random := np_random s; stdout := stdout s |}).
  assert (He1 : wf_engine (self s1)).
  { destruct (initial_weights_shape mt19937 V H) as (Hw & H0 & H1).
    unfold s1, wf_engine. cbn [self num_visible num_hidden weights].
    repeat split; try assumption; lia. }
  unfold bind at 1. rewrite train_to_nat.
  destruct (train_trace data learning_rate (Z.to_nat max_epochs) s1 He1 Hd Hc)
    as (s2 & errs & Hrun & He2 & HV2 & HH2 & _).
  rewrite Hrun. unfold bind at 1.
  assert (Hc2 : Z.of_nat (ncols data) = num_visible (self s2)) by (rewrite HV2; exact Hc).
  rewrite run_visible_run by assumption.
  set (P := nd_map _logistic (dot (np_insert_col 1 data) (weights (self s2)))).
  destruct (wf_engine_shape _ He2) as (HW0 & HW1 & _).
  destruct (sampled_states_shape P (np_random s2) (shape0 data)
              (Z.to_nat (num_hidden (self s2)))) as (Hhw & Hh0 & Hh1 & _).
  { apply wf_nd_map, wf_dot. }
  { unfold P. rewrite shape0_nd_map, shape0_dot. apply shape0_insert_col. }
  { exact HW1. }
  set (hidden := drop_col0 _) in *.
  set (s3 := {| self := self s2; np_random := _; stdout := stdout s2 |}).
  destruct (daydream_run k s3 He2 Hk) as (m & s4 & Hday & _ & Hmw & Hm0 & Hm1 & _).
  unfold bind. rewrite Hday. unfold ret.
  exists hidden, m, s4. split; [reflexivity|].
  split; [exact Hhw|]. split; [exact Hh0|].
  split; [rewrite Hh1, HH2; unfold s1; cbn [self num_hidden]; lia|].
  split; [exact Hmw|]. split; [lia|].
  rewrite Hm1. unfold s3. cbn [self]. rewrite HV2. unfold s1; cbn [self num_visible]. lia.
Qed.

Lemma construct_train_infer_sample_witness :
  exists hidden samples s',
    (__init__ sample_doubles 6 2 ;;
     train training_data 1000 0.1 ;;
     hidden <- run_visible training_data ;;
     samples <- daydream 5 ;;
     ret (hidden, samples)) demo_state = (Ok (hidden, samples), s') /\
    wf hidden /\ shape0 hidden = 6%nat /\ Z.of_nat (ncols hidden) = 2%Z /\
    wf samples /\ Z.of_nat (shape0 samples) = 5%Z /\ Z.of_nat (ncols samples) = 6%Z.
Proof.
  apply (construct_train_infer_sample sample_doubles 6 2 training_data 1000 0.1 5 demo_state).
  - lia.
  - lia.
  - lia.
  - exact training_data_wf.
  - reflexivity.
  - lia.
Defined.

(** ** The size of the reconstruction error *)

Lemma Forall_zip_rows (PA PB Q : list R -> Prop) (f : R -> R -> R) (a b : list (list R)) :
  (forall r t, PA r -> PB t -> Q (zip_with f r t)) ->
  Forall PA a -> Forall PB b -> Forall Q (zip_rows f a b).
Proof.
  intros Hf Ha. revert b. induction Ha as [|r a Hr Ha IH]; intros [|t b] Hb; simpl;
    try constructor.
  - inversion Hb; subst. apply Hf; assumption.
  - inversion Hb; subst. apply IH. assumption.
Qed.

Lemma length_zip_rows_le (f : R -> R -> R) (a b : list (list R)) :
  (length (zip_rows f a b) <= length a)%nat.
Proof.
  revert b. induction a as [|r a IH]; intros [|t b]; simpl; try lia.
  specialize (IH b). lia.
Qed.

Lemma sum_rows_bound (c : R) (l : list (list R)) :
  Forall (fun r => fold_right Rplus 0 r <= c) l ->
  fold_right Rplus 0 (map (fold_right Rplus 0) l) <= INR (length l) * c.
Proof.
  induction 1 as [|r l Hr Hl IH].
  - simpl. lra.
  - change (length (r :: l)) with (S (length l)). rewrite S_INR. simpl. lra.
Qed.

Lemma squares_bound (d q : list R) :
  binary d -> Forall (fun x => 0 < x < 1) q ->
  fold_right Rplus 0 (map (fun x => x ^ 2) (zip_with Rminus d q)) <= INR (length d).
Proof.
  intros Hd. revert q. induction Hd as [|x d Hx Hd IH]; intros q Hq.
  - simpl. lra.
  - destruct Hq as [|y q Hy Hq].
    + simpl zip_with. simpl map. simpl fold_right. apply pos_INR.
    + change (length (x :: d)) with (S (length d)). rewrite S_INR.
      cbn [zip_with map fold_right].
      specialize (IH q Hq). destruct Hx as [-> | ->]; nra.
Qed.

Lemma neg_visible_probs_rows (X W U : ndarray) :
  ncols (T W) <> O ->
  Forall (fun t => exists q, t = 1 :: q /\ Forall (fun x => 0 < x < 1) q)
    (rows (Epoch.neg_visible_probs X W U)).
Proof.
  intros Hc. unfold Epoch.neg_visible_probs, pin_col0, nd_map. cbn [rows].
  rewrite map_map. apply Forall_map.
  pose proof (wf_dot (Epoch.pos_hidden_states X W U) (T W)) as Hw.
  eapply Forall_impl; [|exact Hw]. cbn beta. intros r Hr.
  change (ncols (dot (Epoch.pos_hidden_states X W U) (T W))) with (ncols (T W)) in Hr.
  destruct r as [|a r]; [exfalso; apply Hc; symmetry; exact Hr|].
  exists (map _logistic r). split; [reflexivity|].
  apply Forall_map, Forall_forall. intros x _. rewrite logistic_inv.
  apply logistic_bounds.
Qed.

(** the error of an epoch on 0/1 data is at most one per entry of the data *)
Lemma error_bound (data W U : ndarray) :
  Forall binary (rows data) -> wf data -> ncols (T W) <> O ->
  Epoch.error (np_insert_col 1 data) W U <= INR (shape0 data) * INR (ncols data).
Proof.
  intros Hbin Hd Hc. unfold Epoch.error, np_sum, nd_map, zip_nd. cbn [rows].
  set (rs := zip_rows Rminus _ _).
  assert (Hrows : Forall (fun t => fold_right Rplus 0 (map (fun x => x ^ 2) t)
                                   <= INR (ncols data)) rs).
  { unfold rs.
    apply (Forall_zip_rows
             (fun r => exists d, r = 1 :: d /\ binary d /\ length d = ncols data)
             (fun t => exists q, t = 1 :: q /\ Forall (fun x => 0 < x < 1) q)).
    - intros r t (d & -> & Hdb & Hlen) (q & -> & Hq).
      cbn [zip_with map fold_right].
      pose proof (squares_bound d q Hdb Hq) as Hs. rewrite Hlen in Hs. lra.
    - simpl. apply Forall_map. unfold wf in Hd. rewrite Forall_forall in *. intros r Hr.
      exists r. split; [reflexivity|]. split; [apply Hbin, Hr | apply Hd, Hr].
    - apply neg_visible_probs_rows. exact Hc. }
  assert (Hlen : (length rs <= shape0 data)%nat).
  { unfold rs. rewrite length_zip_rows_le. apply Nat.eq_le_incl, shape0_insert_col. }
  rewrite map_map.
  rewrite <- (map_map (map (fun x => x ^ 2)) (fold_right Rplus 0)).
  eapply Rle_trans.
  - apply (sum_rows_bound (INR (ncols data))). apply Forall_map. exact Hrows.
  - rewrite length_map. apply Rmult_le_compat_r; [apply pos_INR | apply le_INR, Hlen].
Qed.

Lemma train_trace_bound (data : ndarray) (lr : R) (n : nat) (s : state) :
  wf_engine (self s) -> wf data -> Z.of_nat (ncols data) = num_visible (self s) ->
  Forall binary (rows data) ->
  exists s' errs,
    train data (Z.of_nat n) lr s = (Ok tt, s') /\
    wf_engine (self s') /\
    num_visible (self s') = num_visible (self s) /\
    debug_print (self s') = debug_print (self s) /\
    length errs = n /\
    Forall (fun e => 0 <= e <= INR (shape0 data) * INR (ncols data)) errs /\
    stdout s' = if debug_print (self s)
                then (stdout s ++ combine (range 0 (Z.of_nat n)) errs)%list
                else stdout s.
Proof.
  intros He Hd Hc Hbin. induction n as [|n IH].
  - exists s, []. unfold train. rewrite range_nonpositive by lia. simpl. unfold ret.
    rewrite app_nil_r.
    split; [reflexivity|]. split; [exact He|]. do 3 (split; [reflexivity|]).
    split; [constructor|]. destruct (debug_print (self s)); reflexivity.
  - destruct IH as (sn & errs & Hrun & Hen & HVn & HDn & Hlen & Hb & Hout).
    assert (Hcn : Z.of_nat (ncols data) = num_visible (self sn)) by congruence.
    pose proof (train_epoch_state data lr (Z.of_nat n) sn Hen Hd Hcn) as Hstep.
    destruct (train_epoch_ok data lr (Z.of_nat n) sn Hen Hd Hcn)
      as (s' & Hs' & He' & HV' & _).
    rewrite Hstep in Hs'. injection Hs' as <-.
    set (e := Epoch.error _ _ _) in *.
    eexists. exists (errs ++ [e])%list.
    split; [rewrite (train_succ data lr n s sn Hrun); unfold bind; rewrite Hstep;
            reflexivity|].
    cbn [self num_visible debug_print stdout] in *.
    split; [exact He'|]. split; [exact HVn|]. split; [exact HDn|].
    split; [rewrite length_app, Hlen; simpl; lia|].
    split.
    + apply Forall_app. split; [exact Hb|]. constructor; [|constructor].
      split; [apply error_nonneg|]. apply error_bound; try assumption.
      destruct (wf_engine_shape _ Hen) as (HW0 & _). unfold T; cbn [ncols].
      rewrite HW0. discriminate.
    + rewrite HDn, Hout. destruct (debug_print (self s)); [|reflexivity].
      replace (Z.of_nat (S n)) with (Z.of_nat n + 1)%Z by lia.
      rewrite range_snoc by lia.
      rewrite combine_snoc by (rewrite length_range, Hlen; lia).
      rewrite app_assoc. reflexivity.
Qed.

Lemma training_data_binary : Forall binary (rows training_data).
Proof.
  unfold training_data, binary; cbn [rows].
  repeat (first [apply Forall_nil | apply Forall_cons]);
    solve [left; lra | right; lra].
Qed.

(** X20.  On data of 0s and 1s every error that [train] reports lies between
    0 and [num_examples * num_visible]: an entry of the data and its
    reconstruction differ by less than 1, and the bias column does not
    differ at all. *)
Theorem train_errors_bounded
    (data : ndarray) (max_epochs : Z) (learning_rate : R) (s : state) :
  wf_engine (self s) -> wf data -> Z.of_nat (ncols data) = num_visible (self s) ->
  Forall binary (rows data) -> debug_print (self s) = true ->
  exists s' errors,
    train data max_epochs learning_rate s = (Ok tt, s') /\
    stdout s' = (stdout s ++ combine (range 0 max_epochs) errors)%list /\
    length errors = Z.to_nat max_epochs /\
    Forall (fun e => 0 <= e <= INR (shape0 data) * INR (ncols data)) errors.
Proof.
  intros He Hd Hc Hbin Hdbg. rewrite train_to_nat.
  destruct (train_trace_bound data learning_rate (Z.to_nat max_epochs) s He Hd Hc Hbin)
    as (s' & errs & Hrun & _ & _ & _ & Hlen & Hb & Hout).
  rewrite Hdbg in Hout. exists s', errs. rewrite (range_to_nat max_epochs). auto.
Qed.

Lemma train_errors_bounded_witness :
  exists s' errors,
    train training_data 1000 0.1 demo_state = (Ok tt, s') /\
    stdout s' = combine (range 0 1000) errors /\
    length errors = 1000%nat /\
    Forall (fun e => 0 <= e <= INR 6 * INR 6) errors.
Proof.
  apply (train_errors_bounded training_data 1000 0.1 demo_state).
  - exact demo_engine_wf.
  - exact training_data_wf.
  - reflexivity.
  - exact training_data_binary.
  - reflexivity.
Defined.

(** ** Edge cases *)

Lemma state_eta (s : state) :
  {| self := self s; np_random := np_random s; stdout := stdout s |} = s.
Proof. destruct s; reflexivity. Qed.

(** X21.  Data without rows.  On an engine that satisfies the invariant,
    [run_visible] on an array of no rows and [num_visible] columns returns
    the array of no rows and [num_hidden] columns, and [run_hidden] on no
    rows and [num_hidden] columns returns no rows and [num_visible] columns;
    neither draws anything: the state is what it was. *)
Theorem inference_on_no_rows (s : state) :
  wf_engine (self s) ->
  run_visible (NdArray (Z.to_nat (num_visible (self s))) []) s =
    (Ok (NdArray (Z.to_nat (num_hidden (self s))) []), s) /\
  run_hidden (NdArray (Z.to_nat (num_hidden (self s))) []) s =
    (Ok (NdArray (Z.to_nat (num_visible (self s))) []), s).
Proof.
  intros He. pose proof He as (HV & HH & _).
  destruct (wf_engine_shape _ He) as (HW0 & HW1 & _). split.
  - rewrite run_visible_run; [| exact He | constructor | simpl; lia].
    cbv zeta. change (shape0 (NdArray (Z.to_nat (num_visible (self s))) [])) with O.
    cbn [Nat.mul]. rewrite advance_0, state_eta.
    unfold drop_col0, zip_nd, nd_map, dot, np_insert_col, rand_array.
    cbn [ncols rows map zip_rows draw_rows]. rewrite HW1. reflexivity.
  - rewrite run_hidden_run; [| exact He | constructor | simpl; lia].
    cbv zeta. change (shape0 (NdArray (Z.to_nat (num_hidden (self s))) [])) with O.
    cbn [Nat.mul]. rewrite advance_0, state_eta.
    unfold drop_col0, zip_nd, nd_map, dot, np_insert_col, rand_array, T.
    cbn [ncols rows map zip_rows draw_rows]. rewrite HW0. reflexivity.
Qed.

Lemma inference_on_no_rows_witness :
  run_visible (NdArray 6 []) demo_state = (Ok (NdArray 2 []), demo_state) /\
  run_hidden (NdArray 2 []) demo_state = (Ok (NdArray 6 []), demo_state).
Proof.
  apply (inference_on_no_rows demo_state). exact demo_engine_wf.
Defined.

(** X22.  [daydream] without samples.  A negative [num_samples] raises
    [ValueError] when the array of samples is allocated, before anything is
    drawn.  [daydream(0)] raises [IndexError] at the assignment to row 0, and
    by then it has drawn the [num_visible] doubles meant for that row: the
    generator has advanced although the call failed. *)
Theorem daydream_without_samples (num_samples : Z) (s : state) :
  (0 <= num_visible (self s))%Z ->
  ((num_samples < 0)%Z -> daydream num_samples s = (Raise ValueError, s)) /\
  daydream 0 s =
    (Raise IndexError,
     {| self := self s;
        np_random := advance (np_random s) (Z.to_nat (num_visible (self s)));
        stdout := stdout s |}).
Proof.
  intros HV. split.
  - intros Hneg. unfold daydream, bind, lift, get_num_visible, np_ones.
    replace (num_samples <? 0)%Z with true by (symmetry; apply Z.ltb_lt; lia).
    reflexivity.
  - unfold daydream, bind, lift, get_num_visible.
    rewrite (np_ones_eq 0 (S (Z.to_nat (num_visible (self s))))) by lia.
    rewrite (np_random_rand1_eq (Z.to_nat (num_visible (self s)))) by lia.
    reflexivity.
Qed.

Lemma daydream_without_samples_witness :
  ((-3 < 0)%Z -> daydream (-3) demo_state = (Raise ValueError, demo_state)) /\
  daydream 0 demo_state =
    (Raise IndexError,
     {| self := demo_engine; np_random := advance (constant_stream 0.75) 6;
        stdout := [] |}).
Proof.
  apply (daydream_without_samples (-3) demo_state). simpl. lia.
Defined.

(** X23.  [RBM(V, H)] with [V + H = 0], as in [RBM(0, 0)], raises Python's
    [ZeroDivisionError]: the bound [6. / (num_hidden + num_visible)] is
    computed before any array is allocated, and the object is left without
    new weights. *)
Theorem init_zero_sum (mt19937 : Z -> nat -> R) (V H : Z) (s : state) :
  (V + H = 0)%Z ->
  exists s',
    __init__ mt19937 V H s = (Raise ZeroDivisionError, s') /\
    weights (self s') = weights (self s).
Proof.
  intros Hsum.
  unfold __init__, bind, set_num_hidden, set_num_visible, set_debug_print, set_self,
    lift, float_div.
  cbn [self num_hidden num_visible debug_print weights np_random stdout].
  replace (H + V =? 0)%Z with true by (symmetry; apply Z.eqb_eq; lia).
  eexists. split; reflexivity.
Qed.

Lemma init_zero_sum_witness :
  exists s',
    __init__ sample_doubles 0 0 demo_state = (Raise ZeroDivisionError, s') /\
    weights (self s') = weights demo_engine.
Proof.
  apply (init_zero_sum sample_doubles 0 0 demo_state). lia.
Defined.
